(** * KBDB: the profile-driven retrieval pipeline of [KBDB.py]

    A shallow embedding of the module's tables ([MODELS], [TASKS],
    [DISTANCE_OPERATORS], [DISTANCE_ORDER]), of the three methods of
    [RAGMCPServer] that a search goes through ([_get_embedding],
    [_search_database], [_format_results]) and of the tools published with
    [@mcp.tool], followed by the properties of the pipeline.

    The embedding backend and the document store are outside the program:
    they are an environment [Env] of two oracles, and every request made to
    them is appended to a trace.  Logging ([logger.debug], [logger.error])
    writes to stderr only and is left out.

    The construction of the server ([RAGMCPServer.__init__] and
    [_initialize_connections]) is in the module [Startup]. *)

From Stdlib Require Import ZArith QArith String Ascii List Sorted.
From stdpp Require Import base option list strings gmap pretty.

Local Open Scope Z_scope.
Local Open Scope string_scope.

(** ** Python values and primitives used by the module *)

Module Py.

(** ["\n"] *)
Definition nl : string := String "010"%char EmptyString.

(** The exceptions that can arise below a tool: a missing dict key, an
    index out of range, and whatever the OpenAI client or psycopg2 raise
    (all of them subclasses of [Exception]), kept with their class name
    and message. *)
Inductive exn : Type :=
| KeyError (key : string)
| IndexError (msg : string)
| LibraryError (cls : string) (msg : string).

Inductive result (A : Type) : Type :=
| Ok (a : A)
| Raise (e : exn).
Global Arguments Ok {A} a.
Global Arguments Raise {A} e.

Definition hex_digit (n : N) : ascii :=
  match n with
  | 0%N => "0" | 1%N => "1" | 2%N => "2" | 3%N => "3" | 4%N => "4"
  | 5%N => "5" | 6%N => "6" | 7%N => "7" | 8%N => "8" | 9%N => "9"
  | 10%N => "a" | 11%N => "b" | 12%N => "c" | 13%N => "d" | 14%N => "e"
  | _ => "f"
  end%char.

Definition squote : ascii := "039"%char.
Definition dquote : ascii := "034"%char.
Definition backslash : ascii := "092"%char.

Fixpoint contains_char (c : ascii) (s : string) : bool :=
  match s with
  | EmptyString => false
  | String d s' => Ascii.eqb c d || contains_char c s'
  end.

(** One character of [repr(str)] under the chosen quote.  Bytes above 127
    (the UTF-8 encoding of printable non-ASCII text) are kept as they are. *)
Definition repr_char (quote c : ascii) : string :=
  let n := N_of_ascii c in
  if Ascii.eqb c backslash then String backslash (String backslash EmptyString)
  else if Ascii.eqb c quote then String backslash (String quote EmptyString)
  else if (n =? 10)%N then String backslash "n"
  else if (n =? 13)%N then String backslash "r"
  else if (n =? 9)%N then String backslash "t"
  else if (n <? 32)%N || (n =? 127)%N then
    String backslash
      (String "x" (String (hex_digit (n / 16)) (String (hex_digit (n mod 16)) EmptyString)))
  else String c EmptyString.

Fixpoint repr_body (quote : ascii) (s : string) : string :=
  match s with
  | EmptyString => EmptyString
  | String c s' => repr_char quote c +:+ repr_body quote s'
  end.

(** [repr] of a [str]: single quotes, unless the text has a single quote
    and no double quote. *)
Definition repr (s : string) : string :=
  let quote :=
    if contains_char squote s && negb (contains_char dquote s)
    then dquote else squote in
  String quote (repr_body quote s +:+ String quote EmptyString).

(** [str(e)] for an exception [e]: a [KeyError] shows the [repr] of its
    key, the others their message. *)
Definition str_exn (e : exn) : string :=
  match e with
  | KeyError key => repr key
  | IndexError msg => msg
  | LibraryError _ msg => msg
  end.

(** [str(i)] for an [int]. *)
Definition str_int (i : Z) : string := pretty i.

(** [sep.join(parts)] *)
Fixpoint join (sep : string) (parts : list string) : string :=
  match parts with
  | [] => EmptyString
  | [p] => p
  | p :: rest => p +:+ sep +:+ join sep rest
  end.

(** A format string of [str.format]: literal text and named fields. *)
Inductive fmt_part : Type :=
| Lit (text : string)
| Field (name : string).

Fixpoint kwarg (name : string) (kwargs : list (string * string)) : result string :=
  match kwargs with
  | [] => Raise (KeyError name)
  | (k, v) :: rest => if String.eqb k name then Ok v else kwarg name rest
  end.

(** [template.format] with keyword arguments: a field that no keyword
    fills raises [KeyError]. *)
Fixpoint format (template : list fmt_part) (kwargs : list (string * string))
  : result string :=
  match template with
  | [] => Ok EmptyString
  | Lit text :: rest =>
      match format rest kwargs with
      | Ok s => Ok (text +:+ s)
      | Raise e => Raise e
      end
  | Field name :: rest =>
      match kwarg name kwargs with
      | Ok v =>
          match format rest kwargs with
          | Ok s => Ok (v +:+ s)
          | Raise e => Raise e
          end
      | Raise e => Raise e
      end
  end.

(** [d[key]] on a dict with [str] keys. *)
Definition getitem {V : Type} (d : gmap string V) (key : string) : result V :=
  match d !! key with
  | Some v => Ok v
  | None => Raise (KeyError key)
  end.

End Py.
Export Py.

(** ** Dataclasses and the module's tables *)

Record Model : Type := mkModel {
  model : string;
  prefix : string;
  suffix : string;
  distance_metric : string;
}.

(** [Model(model, prefix=..., suffix=..., distance_metric=...)] with the
    dataclass defaults for the keywords that are not given. *)
Definition Model_init (model : string) (prefix suffix distance_metric : option string)
  : Model :=
  {| model := model;
     prefix := default EmptyString prefix;
     suffix := default EmptyString suffix;
     distance_metric := default "cosine" distance_metric |}.

(** The field [model] of a [Model], for the places where a parameter is
    itself called [model]. *)
Definition model_name (m : Model) : string := model m.

Record Task : Type := mkTask {
  name : string;
  description : string;
}.

Definition MODELS : gmap string Model :=
  list_to_map
    [ ("qa",           Model_init "nomic-embed-text:v1.5" (Some "search_query: ") None None);
      ("style",        Model_init "nomic-embed-text:v1.5" (Some "classification: ") None None);
      ("semantic",     Model_init "nomic-embed-text:v1.5" (Some "clustering: ") None None);
      ("similar_code", Model_init "hamidakach/nomic-embed-text-v1.5-GGUF" (Some "clustering: ") None None) ].

Definition TASKS : gmap string Task :=
  list_to_map
    [ ("style",        mkTask "style" "Search for content clustered by theme or style");
      ("qa",           mkTask "qa" "Search optimized for question->answer pairs");
      ("semantic",     mkTask "semantic" "Search based on semantic similarity");
      ("similar_code", mkTask "similar_code" "Search for similar code snippets") ].

Definition DISTANCE_OPERATORS : gmap string string :=
  list_to_map
    [ ("cosine", "<=>"); ("inner_product", "<#>"); ("l2", "<->") ].

Definition DISTANCE_ORDER : gmap string string :=
  list_to_map
    [ ("cosine", "ASC"); ("inner_product", "DESC"); ("l2", "ASC") ].

(** [SEARCH_QUERY], cut at its two replacement fields. *)
Definition SEARCH_QUERY : list fmt_part :=
  [ Lit (nl +:+
         "SELECT" +:+ nl +:+
         "    d.doc_id," +:+ nl +:+
         "    d.name AS doc_name," +:+ nl +:+
         "    dc.content AS matching_content" +:+ nl +:+
         "FROM embeddings e" +:+ nl +:+
         "JOIN document_chunks dc ON e.chunk_id = dc.chunk_id" +:+ nl +:+
         "JOIN documents d ON dc.doc_id = d.doc_id" +:+ nl +:+
         "WHERE e.model = %s AND e.task = %s" +:+ nl +:+
         "ORDER BY e.embedding ");
    Field "operator";
    Lit " %s::vector ";
    Field "order_direction";
    Lit (nl +:+ "LIMIT %s;" +:+ nl) ].

(** The four dicts are module globals: ordinary mutable objects, so they are
    part of the program state. *)
Record Globals : Type := mkGlobals {
  g_MODELS : gmap string Model;
  g_TASKS : gmap string Task;
  g_DISTANCE_OPERATORS : gmap string string;
  g_DISTANCE_ORDER : gmap string string;
}.

(** The state once the module has been imported. *)
Definition module_globals : Globals :=
  {| g_MODELS := MODELS;
     g_TASKS := TASKS;
     g_DISTANCE_OPERATORS := DISTANCE_OPERATORS;
     g_DISTANCE_ORDER := DISTANCE_ORDER |}.

(** ** The two collaborators and the program state *)

(** A query vector.  The components are Python floats; the program never
    computes on them (only the store does), and they are taken as rationals,
    which hold every finite double exactly. *)
Definition Vector : Type := list Q.

(** The answer of [embeddings.create]: [response.data[i].embedding]. *)
Record Embedding : Type := mkEmbedding { embedding : Vector }.
Record CreateEmbeddingResponse : Type := mkResponse { data : list Embedding }.

(** A value of the [doc_id] column as psycopg2 hands it over. *)
Inductive SqlId : Type :=
| SqlInt (i : Z)
| SqlText (s : string).

(** [str(row[0])] *)
Definition str_id (v : SqlId) : string :=
  match v with
  | SqlInt i => str_int i
  | SqlText s => s
  end.

(** A row of the answer to [SEARCH_QUERY]: [(doc_id, doc_name, matching_content)],
    the last two from the text columns [d.name] and [dc.content]. *)
Record Row : Type := mkRow {
  row_0 : SqlId;
  row_1 : string;
  row_2 : string;
}.

(** The dict built for each row by [_search_database]. *)
Record MatchRecord : Type := mkMatch {
  doc_id : string;
  doc_name : string;
  matching_content : string;
}.

(** The parameter tuple of [cursor.execute]. *)
Record QueryParams : Type := mkParams {
  param_model : string;
  param_task : string;
  param_embedding : Vector;
  param_top_k : Z;
}.

(** What leaves the process during a search. *)
Inductive Event : Type :=
| EmbedRequest (model_id : string) (input : string)
| StoreQuery (statement : string) (params : QueryParams).

(** The collaborators: each answers a request, or raises, possibly
    depending on everything the process has sent so far. *)
Record Env : Type := mkEnv {
  embeddings_create :
    list Event -> string -> string -> result CreateEmbeddingResponse;
  execute_fetchall :
    list Event -> string -> QueryParams -> result (list Row);
}.

Record State : Type := mkState {
  globals : Globals;
  trace : list Event;
}.

(** ** Computations: state passing with exceptions *)

Definition M (A : Type) : Type := State -> result A * State.

Definition ret {A : Type} (a : A) : M A := fun st => (Ok a, st).

Definition raise {A : Type} (e : exn) : M A := fun st => (Raise e, st).

Definition bind {A B : Type} (m : M A) (k : A -> M B) : M B :=
  fun st =>
    match m st with
    | (Ok a, st') => k a st'
    | (Raise e, st') => (Raise e, st')
    end.

(** [try: body except Exception as e: handler(e)] *)
Definition try_except {A : Type} (body : M A) (handler : exn -> M A) : M A :=
  fun st =>
    match body st with
    | (Ok a, st') => (Ok a, st')
    | (Raise e, st') => handler e st'
    end.

Definition lift {A : Type} (r : result A) : M A := fun st => (r, st).

Declare Scope py_scope.
Delimit Scope py_scope with py.
Notation "x <- m ;; k" := (bind m (fun x => k))
  (at level 100, m at next level, right associativity) : py_scope.
Local Open Scope py_scope.

(** [TABLE[key]] on one of the global dicts, read at the time of the access. *)
Definition global_getitem {V : Type} (table : Globals -> gmap string V) (key : string)
  : M V :=
  fun st => (getitem (table (globals st)) key, st).

(** [xs[0]] *)
Definition first_item {A : Type} (xs : list A) : result A :=
  match xs with
  | x :: _ => Ok x
  | [] => Raise (IndexError "list index out of range")
  end.

(** ** [RAGMCPServer] *)

Section RAGMCPServer.

Variable env : Env.

(** [self.openai_client.embeddings.create(model=..., input=...)] *)
Definition openai_embeddings_create (model_id input : string)
  : M CreateEmbeddingResponse :=
  fun st =>
    (embeddings_create env (trace st) model_id input,
     {| globals := globals st;
        trace := trace st ++ [EmbedRequest model_id input] |}).

(** [cursor.execute(query, params)] followed by [cursor.fetchall()], on a
    cursor of [self.db_conn]. *)
Definition cursor_execute_fetchall (statement : string) (params : QueryParams)
  : M (list Row) :=
  fun st =>
    (execute_fetchall env (trace st) statement params,
     {| globals := globals st;
        trace := trace st ++ [StoreQuery statement params] |}).

Definition _get_embedding (text : string) (model : Model) : M Vector :=
  try_except
    (let formatted_text := prefix model +:+ text +:+ suffix model in
     response <- openai_embeddings_create (model_name model) formatted_text ;;
     item <- lift (first_item (data response)) ;;
     ret (embedding item))
    (fun e => raise e).

Definition row_to_dict (row : Row) : MatchRecord :=
  {| doc_id := str_id (row_0 row);
     doc_name := row_1 row;
     matching_content := row_2 row |}.

Definition _search_database (query_embedding : Vector) (model : Model) (task : Task)
    (top_k : Z) : M (list MatchRecord) :=
  try_except
    (operator <- global_getitem g_DISTANCE_OPERATORS (distance_metric model) ;;
     order_direction <- global_getitem g_DISTANCE_ORDER (distance_metric model) ;;
     formatted_query <-
       lift (format SEARCH_QUERY
               [("operator", operator); ("order_direction", order_direction)]) ;;
     results <-
       cursor_execute_fetchall formatted_query
         {| param_model := model_name model;
            param_task := name task;
            param_embedding := query_embedding;
            param_top_k := top_k |} ;;
     ret (map row_to_dict results))
    (fun e => raise e).

(** The f-string appended for result number [i]. *)
Definition format_part (i : Z) (result : MatchRecord) : string :=
  "--- Result " +:+ str_int i +:+ " | " +:+ doc_name result +:+ " | "
    +:+ doc_id result +:+ " ---" +:+ nl
  +:+ "--- Document Start ---" +:+ nl
  +:+ "Content: " +:+ matching_content result +:+ nl
  +:+ "--- Document End ---" +:+ nl.

(** [for i, result in enumerate(results, 1): formatted_parts.append(...)],
    from index [i] on. *)
Fixpoint format_loop (i : Z) (results : list MatchRecord) (formatted_parts : list string)
  : list string :=
  match results with
  | [] => formatted_parts
  | result :: rest =>
      format_loop (i + 1) rest (formatted_parts ++ [format_part i result])
  end.

Definition no_results_message : string :=
  "No relevant information found in the knowledge base.".

Definition _format_results (results : list MatchRecord) : string :=
  match results with
  | [] => no_results_message
  | _ => join nl (format_loop 1 results [])
  end.

(** ** The tools *)

Definition search_style (query : string) (top_k : Z) : M string :=
  try_except
    (model <- global_getitem g_MODELS "style" ;;
     task <- global_getitem g_TASKS "style" ;;
     query_embedding <- _get_embedding query model ;;
     results <- _search_database query_embedding model task top_k ;;
     ret (_format_results results))
    (fun e => ret ("Search failed: " +:+ str_exn e)).

Definition search_qa (query : string) (top_k : Z) : M string :=
  try_except
    (model <- global_getitem g_MODELS "qa" ;;
     task <- global_getitem g_TASKS "qa" ;;
     query_embedding <- _get_embedding query model ;;
     results <- _search_database query_embedding model task top_k ;;
     ret (_format_results results))
    (fun e => ret ("Search failed: " +:+ str_exn e)).

Definition search_semantic_similarity (query : string) (top_k : Z) : M string :=
  try_except
    (model <- global_getitem g_MODELS "semantic" ;;
     task <- global_getitem g_TASKS "semantic" ;;
     query_embedding <- _get_embedding query model ;;
     results <- _search_database query_embedding model task top_k ;;
     ret (_format_results results))
    (fun e => ret ("Search failed: " +:+ str_exn e)).

(** A function published with [@mcp.tool]: its name, its docstring, the
    default of its [top_k] parameter and the function itself. *)
Record Tool : Type := mkTool {
  tool_name : string;
  tool_doc : string;
  tool_top_k_default : Z;
  tool_fn : string -> Z -> M string;
}.

(** The tools registered on [mcp], in the order of their definition. *)
Definition mcp_tools : list Tool :=
  [ mkTool "search_style" "Search for content clustered by theme or style"
      3 search_style;
    mkTool "search_qa" "Search optimized for question-answer pairs"
      3 search_qa;
    mkTool "search_semantic_similarity" "Search based on semantic similarity"
      3 search_semantic_similarity ].

(** A call of a tool with [query] and, optionally, [top_k]. *)
Definition call_tool (t : Tool) (query : string) (top_k : option Z) : M string :=
  tool_fn t query (default (tool_top_k_default t) top_k).

End RAGMCPServer.

(** The state in which the server starts to serve: the tables as written in
    the module, nothing sent yet. *)
Definition initial_state : State :=
  {| globals := module_globals; trace := [] |}.

(** ** The search of one profile *)

(** The [try] block that the three tools share, with the key of the profile
    as a parameter. *)
Definition search_body (env : Env) (task_id : string) (query : string) (top_k : Z)
  : M string :=
  (model <- global_getitem g_MODELS task_id ;;
   task <- global_getitem g_TASKS task_id ;;
   query_embedding <- _get_embedding env query model ;;
   results <- _search_database env query_embedding model task top_k ;;
   ret (_format_results results))%py.

(** The search that a tool for the profile [task_id] carries out. *)
Definition profile_search (env : Env) (task_id : string) (query : string) (top_k : Z)
  : M string :=
  try_except (search_body env task_id query top_k)
    (fun e => ret ("Search failed: " +:+ str_exn e)).

(** The registered tool [t] runs the search of the profile [task_id]. *)
Definition runs_profile (env : Env) (t : Tool) (task_id : string) : Prop :=
  t ∈ mcp_tools env /\
  forall query top_k st,
    tool_fn t query top_k st = profile_search env task_id query top_k st.

(** The tool surface offers an operation for the profile [task_id]: one of
    the registered tools, whose [top_k] defaults to 3, runs that profile's
    search. *)
Definition offers_operation (task_id : string) : Prop :=
  forall env : Env,
    exists t : Tool, runs_profile env t task_id /\ tool_top_k_default t = 3.

(** A call comes back as a failure without anything having been sent to the
    embedding backend or to the store. *)
Definition fails_without_contact (run : M string) (st : State) : Prop :=
  trace (snd (run st)) = trace st /\
  exists msg, fst (run st) = Ok ("Search failed: " +:+ msg).

(** A request of a caller: which tool, the query, and [top_k] if given. *)
Record Request : Type := mkRequest {
  req_tool : nat;
  req_query : string;
  req_top_k : option Z;
}.

(** The server handling one request; a tool that does not exist is refused
    by the transport before any function of the module runs. *)
Definition handle (env : Env) (r : Request) (st : State) : State :=
  match mcp_tools env !! req_tool r with
  | Some t => snd (call_tool t (req_query r) (req_top_k r) st)
  | None => st
  end.

(** The server handling requests one after the other. *)
Definition serve (env : Env) (requests : list Request) (st : State) : State :=
  fold_left (fun st r => handle env r st) requests st.

(** The statement that [_search_database] issues for the cosine metric. *)
Definition cosine_statement : string :=
  nl +:+
  "SELECT" +:+ nl +:+
  "    d.doc_id," +:+ nl +:+
  "    d.name AS doc_name," +:+ nl +:+
  "    dc.content AS matching_content" +:+ nl +:+
  "FROM embeddings e" +:+ nl +:+
  "JOIN document_chunks dc ON e.chunk_id = dc.chunk_id" +:+ nl +:+
  "JOIN documents d ON dc.doc_id = d.doc_id" +:+ nl +:+
  "WHERE e.model = %s AND e.task = %s" +:+ nl +:+
  "ORDER BY e.embedding <=> %s::vector ASC" +:+ nl +:+
  "LIMIT %s;" +:+ nl.

(** [s] occurs in [t] as it is. *)
Definition occurs_in (s t : string) : Prop :=
  exists before after, t = before +:+ s +:+ after.

(** ** A reference document store *)

Module Store.

(** A row of [embeddings] joined with its chunk and its document. *)
Record Chunk : Type := mkChunk {
  e_model : string;
  e_task : string;
  e_embedding : Vector;
  d_doc_id : SqlId;
  d_name : string;
  dc_content : string;
}.

Inductive direction : Type := ASC | DESC.

Definition direction_text (d : direction) : string :=
  match d with ASC => "ASC" | DESC => "DESC" end.

(** The raw similarity score of the inner-product metric. *)
Fixpoint inner_product (a b : Vector) : Q :=
  match a, b with
  | x :: a', y :: b' => (x * y + inner_product a' b')%Q
  | _, _ => 0%Q
  end.

(** Modelled from the spec: the store's operator for the inner-product
    metric, which section 4.2 gives as the negative inner product (pgvector
    is not part of this repository). *)
Definition neg_inner_product (a b : Vector) : Q := (- inner_product a b)%Q.

(** The distance operators that the store implements, by their text. *)
Definition operators : list (string * (Vector -> Vector -> Q)) :=
  [ ("<#>", neg_inner_product) ].

(** [ORDER BY key dir]: a stable insertion sort. *)
Definition before (d : direction) (x y : Q) : bool :=
  match d with
  | ASC => Qle_bool x y
  | DESC => Qle_bool y x
  end.

Fixpoint insert_by {A : Type} (d : direction) (key : A -> Q) (x : A) (l : list A)
  : list A :=
  match l with
  | [] => [x]
  | y :: l' =>
      if before d (key x) (key y) then x :: y :: l'
      else y :: insert_by d key x l'
  end.

Definition order_by {A : Type} (d : direction) (key : A -> Q) (l : list A) : list A :=
  fold_right (insert_by d key) [] l.

(** The operator and the direction of a statement, when it is
    [SEARCH_QUERY] filled in with an operator the store implements. *)
Definition recognise (statement : string)
  : option ((Vector -> Vector -> Q) * direction) :=
  head
    (omap
       (fun '((text, op), d) =>
          match format SEARCH_QUERY
                  [("operator", text); ("order_direction", direction_text d)] with
          | Ok s => if String.eqb s statement then Some (op, d) else None
          | Raise _ => None
          end)
       (list_prod operators [ASC; DESC])).

Definition select (c : Chunk) : Row :=
  {| row_0 := d_doc_id c; row_1 := d_name c; row_2 := dc_content c |}.

(** The store answering a statement over the table [chunks]. *)
Definition execute (chunks : list Chunk) (statement : string) (params : QueryParams)
  : result (list Row) :=
  match recognise statement with
  | None => Raise (LibraryError "psycopg2.errors.SyntaxError" "syntax error")
  | Some (op, d) =>
      if (param_top_k params <? 0)%Z then
        Raise (LibraryError "psycopg2.errors.InvalidRowCountInLimitClause"
                 "LIMIT must not be negative")
      else
        let matching :=
          filter
            (fun c => e_model c = param_model params /\ e_task c = param_task params)
            chunks in
        let ranked :=
          order_by d (fun c => op (e_embedding c) (param_embedding params)) matching in
        Ok (map select (take (Z.to_nat (param_top_k params)) ranked))
  end.

(** An environment around the table [chunks]: the backend answers every
    text with the vector [v]. *)
Definition env_of (v : Vector) (chunks : list Chunk) : Env :=
  {| embeddings_create := fun _ _ _ => Ok (mkResponse [mkEmbedding v]);
     execute_fetchall := fun _ statement params => execute chunks statement params |}.

End Store.

(** [SEARCH_QUERY.format(operator=..., order_direction=...)] *)
Definition search_statement (operator order_direction : string) : string :=
  (nl +:+
   "SELECT" +:+ nl +:+
   "    d.doc_id," +:+ nl +:+
   "    d.name AS doc_name," +:+ nl +:+
   "    dc.content AS matching_content" +:+ nl +:+
   "FROM embeddings e" +:+ nl +:+
   "JOIN document_chunks dc ON e.chunk_id = dc.chunk_id" +:+ nl +:+
   "JOIN documents d ON dc.doc_id = d.doc_id" +:+ nl +:+
   "WHERE e.model = %s AND e.task = %s" +:+ nl +:+
   "ORDER BY e.embedding ")
  +:+ operator +:+ " %s::vector " +:+ order_direction +:+ (nl +:+ "LIMIT %s;" +:+ nl).

(** A computation that leaves the four tables as they are. *)
Definition keeps_globals {A : Type} (m : M A) : Prop :=
  forall st, globals (snd (m st)) = globals st.

(** ** Environments used as examples *)

(** A backend that answers every text with the vector [v] and a store that
    answers every statement with [rows]. *)
Definition answering_env (v : Vector) (rows : list Row) : Env :=
  {| embeddings_create := fun _ _ _ => Ok (mkResponse [mkEmbedding v]);
     execute_fetchall := fun _ _ _ => Ok rows |}.

(** A backend that is down, in front of the same store. *)
Definition backend_down_env (rows : list Row) : Env :=
  {| embeddings_create := fun _ _ _ =>
       Raise (LibraryError "openai.APITimeoutError" "Request timed out.");
     execute_fetchall := fun _ _ _ => Ok rows |}.

(** An event that is not a store query, or a store query with the
    statement of the cosine metric. *)
Definition cosine_only (ev : Event) : Prop :=
  match ev with
  | EmbedRequest _ _ => True
  | StoreQuery statement _ => statement = cosine_statement
  end.

(** A model with the inner-product metric, and a table of two chunks
    embedded under it: against the query vector [[1]], [far_chunk] has the
    raw inner product 1 and [near_chunk] has 5. *)
Definition ip_model : Model := Model_init "m" None None (Some "inner_product").
Definition ip_task : Task := mkTask "t" "a task".
Definition ip_query : Vector := [1 # 1]%Q.
Definition far_chunk : Store.Chunk :=
  Store.mkChunk "m" "t" [1 # 1]%Q (SqlInt 1) "far.md" "far".
Definition near_chunk : Store.Chunk :=
  Store.mkChunk "m" "t" [5 # 1]%Q (SqlInt 2) "near.md" "near".

(** ** What a call sends and returns, in any state *)

(** The requests that one call of a tool with [top_k] may add to the trace:
    none, one to the embedding backend, or that one followed by one query to
    the store for the same model and with the caller's [top_k]. *)
Inductive sent_by_call (top_k : Z) : list Event -> Prop :=
| sent_nothing : sent_by_call top_k []
| sent_embed (model_id input : string) :
    sent_by_call top_k [EmbedRequest model_id input]
| sent_both (model_id input statement : string) (params : QueryParams) :
    param_model params = model_id ->
    param_top_k params = top_k ->
    sent_by_call top_k [EmbedRequest model_id input; StoreQuery statement params].

(** The string a search of [task_id] returns, from the tables [g], what has
    been sent so far and the answers of the collaborators. *)
Definition search_result (env : Env) (g : Globals) (sent : list Event)
    (task_id query : string) (top_k : Z) : string :=
  match g_MODELS g !! task_id with
  | None => "Search failed: " +:+ repr task_id
  | Some m =>
      match g_TASKS g !! task_id with
      | None => "Search failed: " +:+ repr task_id
      | Some task =>
          let text := prefix m +:+ query +:+ suffix m in
          match embeddings_create env sent (model m) text with
          | Raise e => "Search failed: " +:+ str_exn e
          | Ok response =>
              match data response with
              | [] => "Search failed: list index out of range"
              | item :: _ =>
                  match g_DISTANCE_OPERATORS g !! distance_metric m,
                        g_DISTANCE_ORDER g !! distance_metric m with
                  | Some operator, Some order_direction =>
                      match execute_fetchall env (sent ++ [EmbedRequest (model m) text])
                              (search_statement operator order_direction)
                              (mkParams (model m) (name task) (embedding item) top_k) with
                      | Ok rows => _format_results (map row_to_dict rows)
                      | Raise e => "Search failed: " +:+ str_exn e
                      end
                  | _, _ => "Search failed: " +:+ repr (distance_metric m)
                  end
              end
          end
      end
  end.


(** The number of [%s] in a statement: the parameters psycopg2 will fill. *)
Fixpoint count_placeholders (s : string) : nat :=
  match s with
  | EmptyString => 0
  | String c s' =>
      ((if Ascii.eqb "%" c then
          match s' with
          | String d _ => if Ascii.eqb "s" d then 1 else 0
          | EmptyString => 0
          end
        else 0) + count_placeholders s')%nat
  end.

(** ** Start-up: [RAGMCPServer.__init__] and [_initialize_connections] *)

Module Startup.

(** The handles: a connection answers statements, a client answers
    embedding requests. *)
Definition Connection : Type := list Event -> string -> QueryParams -> result (list Row).
Definition Client : Type := list Event -> string -> string -> result CreateEmbeddingResponse.

(** The keyword arguments of [psycopg2.connect] and of [OpenAI]; a variable
    that is not set gives [None]. *)
Record ConnectArgs : Type := mkConnectArgs {
  host : option string;
  port : option string;
  database : option string;
  user : option string;
  password : option string;
}.

Record OpenAIArgs : Type := mkOpenAIArgs {
  api_key : option string;
  base_url : option string;
}.

(** What the start-up asks of the libraries. *)
Inductive Call : Type :=
| Connect (args : ConnectArgs)
| NewClient (args : OpenAIArgs).

(** The two constructors: each hands over a handle or raises. *)
Record Platform : Type := mkPlatform {
  psycopg2_connect : ConnectArgs -> result Connection;
  OpenAI : OpenAIArgs -> result Client;
}.

(** How a piece of start-up code ends: normally, with an exception, or with
    [SystemExit], which [except Exception] does not catch. *)
Inductive outcome (A : Type) : Type :=
| Done (a : A)
| Raised (e : exn)
| Exited (code : Z).
Global Arguments Done {A} a.
Global Arguments Raised {A} e.
Global Arguments Exited {A} code.

Definition Boot (A : Type) : Type := list Call -> outcome A * list Call.

Definition s_ret {A : Type} (a : A) : Boot A := fun calls => (Done a, calls).

Definition s_bind {A B : Type} (m : Boot A) (k : A -> Boot B) : Boot B :=
  fun calls =>
    match m calls with
    | (Done a, calls') => k a calls'
    | (Raised e, calls') => (Raised e, calls')
    | (Exited code, calls') => (Exited code, calls')
    end.

(** [try: body except Exception as e: handler(e)] *)
Definition s_try {A : Type} (body : Boot A) (handler : exn -> Boot A) : Boot A :=
  fun calls =>
    match body calls with
    | (Raised e, calls') => handler e calls'
    | other => other
    end.

(** [sys.exit(code)] *)
Definition sys_exit {A : Type} (code : Z) : Boot A := fun calls => (Exited code, calls).

(** [os.getenv(name)] *)
Definition os_getenv (environ : gmap string string) (name : string) : option string :=
  environ !! name.

(** The object [self]. *)
Record RAGMCPServer : Type := mkServer {
  db_conn : option Connection;
  openai_client : option Client;
}.

Section Process.

Variable platform : Platform.
Variable environ : gmap string string.

Definition connect (args : ConnectArgs) : Boot Connection :=
  fun calls =>
    (match psycopg2_connect platform args with
     | Ok conn => Done conn
     | Raise e => Raised e
     end,
     (calls ++ [Connect args])%list).

Definition new_client (args : OpenAIArgs) : Boot Client :=
  fun calls =>
    (match OpenAI platform args with
     | Ok client => Done client
     | Raise e => Raised e
     end,
     (calls ++ [NewClient args])%list).

Definition _initialize_connections (self : RAGMCPServer) : Boot RAGMCPServer :=
  s_bind
    (s_try
       (s_bind
          (connect
             {| host := os_getenv environ "RM_DB_HOST";
                port := os_getenv environ "RM_DB_PORT";
                database := os_getenv environ "RM_DB_NAME";
                user := os_getenv environ "RM_DB_USER";
                password := os_getenv environ "RM_DB_PASSWORD" |})
          (fun conn =>
             s_ret {| db_conn := Some conn; openai_client := openai_client self |}))
       (fun e => sys_exit 1))
    (fun self =>
       s_try
         (s_bind
            (new_client
               {| api_key := os_getenv environ "RM_OPENAI_API_KEY";
                  base_url := os_getenv environ "RM_OPENAI_ENDPOINT" |})
            (fun client =>
               s_ret {| db_conn := db_conn self; openai_client := Some client |}))
         (fun e => sys_exit 1)).

(** [RAGMCPServer()] *)
Definition __init__ : Boot RAGMCPServer :=
  _initialize_connections {| db_conn := None; openai_client := None |}.

(** [rag_server = RAGMCPServer()], run when the module is imported. *)
Definition rag_server : outcome RAGMCPServer * list Call := __init__ [].

End Process.

(** The collaborators that the methods of a server talk to, once both of its
    handles are set. *)
Definition server_env (self : RAGMCPServer) : option Env :=
  match db_conn self, openai_client self with
  | Some conn, Some client =>
      Some {| embeddings_create := client; execute_fetchall := conn |}
  | _, _ => None
  end.


(** A platform on which both constructors succeed, one on which the
    database refuses the connection, and an environment. *)
Definition good_platform : Platform :=
  {| psycopg2_connect := fun _ => Ok (fun _ _ _ => Ok []);
     OpenAI := fun _ => Ok (fun _ _ _ => Ok (mkResponse [mkEmbedding [1 # 2]%Q])) |}.

Definition no_database_platform : Platform :=
  {| psycopg2_connect := fun _ =>
       Raise (LibraryError "psycopg2.OperationalError" "connection refused");
     OpenAI := fun _ => Ok (fun _ _ _ => Ok (mkResponse [mkEmbedding [1 # 2]%Q])) |}.

Definition no_client_platform : Platform :=
  {| psycopg2_connect := fun _ => Ok (fun _ _ _ => Ok []);
     OpenAI := fun _ =>
       Raise (LibraryError "openai.OpenAIError" "The api_key client option must be set") |}.

Definition example_environ : gmap string string :=
  list_to_map [ ("RM_DB_HOST", "db"); ("RM_DB_PORT", "5432"); ("RM_DB_NAME", "kb") ].

End Startup.

(** A trace in which every query to the store comes right after a request
    to the embedding backend for the same model. *)
Inductive paired : list Event -> Prop :=
| paired_nil : paired []
| paired_embed (model_id input : string) (rest : list Event) :
    paired rest -> paired (EmbedRequest model_id input :: rest)
| paired_both (model_id input statement : string) (params : QueryParams)
    (rest : list Event) :
    param_model params = model_id ->
    paired rest ->
    paired (EmbedRequest model_id input :: StoreQuery statement params :: rest).

(** [s] ends with [e]. *)
Definition ends_with (e s : string) : Prop := exists before, s = before +:+ e.

(** * Properties *)

(** ** The tables at start-up *)

Lemma MODELS_style :
  MODELS !! "style"
  = Some (mkModel "nomic-embed-text:v1.5" "classification: " EmptyString "cosine").
Proof. vm_compute. reflexivity. Qed.

Lemma MODELS_qa :
  MODELS !! "qa"
  = Some (mkModel "nomic-embed-text:v1.5" "search_query: " EmptyString "cosine").
Proof. vm_compute. reflexivity. Qed.

Lemma MODELS_semantic :
  MODELS !! "semantic"
  = Some (mkModel "nomic-embed-text:v1.5" "clustering: " EmptyString "cosine").
Proof. vm_compute. reflexivity. Qed.

Lemma MODELS_similar_code :
  MODELS !! "similar_code"
  = Some (mkModel "hamidakach/nomic-embed-text-v1.5-GGUF" "clustering: " EmptyString "cosine").
Proof. vm_compute. reflexivity. Qed.

Lemma TASKS_name (task_id : string) (task : Task) :
  TASKS !! task_id = Some task -> name task = task_id.
Proof.
  unfold TASKS. cbn [list_to_map foldr uncurry fst snd].
  rewrite !lookup_insert_Some, lookup_empty.
  intros H. repeat destruct H as [[<- <-] | [_ H]]; try reflexivity.
  discriminate.
Qed.

Lemma MODELS_cosine (task_id : string) (m : Model) :
  MODELS !! task_id = Some m -> distance_metric m = "cosine".
Proof.
  unfold MODELS. cbn [list_to_map foldr uncurry fst snd].
  rewrite !lookup_insert_Some, lookup_empty.
  intros H. repeat destruct H as [[<- <-] | [_ H]]; try reflexivity.
  discriminate.
Qed.

Lemma DISTANCE_OPERATORS_cosine : DISTANCE_OPERATORS !! "cosine" = Some "<=>".
Proof. vm_compute. reflexivity. Qed.

Lemma DISTANCE_ORDER_cosine : DISTANCE_ORDER !! "cosine" = Some "ASC".
Proof. vm_compute. reflexivity. Qed.

Lemma format_SEARCH_QUERY (operator order_direction : string) :
  format SEARCH_QUERY [("operator", operator); ("order_direction", order_direction)]
  = Ok (search_statement operator order_direction).
Proof. reflexivity. Qed.

Lemma search_statement_cosine : search_statement "<=>" "ASC" = cosine_statement.
Proof. reflexivity. Qed.

(** ** One search, step by step *)

Section Run.

Variable env : Env.

Lemma tool_search_style : search_style env = profile_search env "style".
Proof. reflexivity. Qed.

Lemma tool_search_qa : search_qa env = profile_search env "qa".
Proof. reflexivity. Qed.

Lemma tool_search_semantic_similarity :
  search_semantic_similarity env = profile_search env "semantic".
Proof. reflexivity. Qed.

(** Every registered tool runs the search of one of three profiles. *)
Lemma mcp_tools_profile (t : Tool) :
  t ∈ mcp_tools env ->
  tool_top_k_default t = 3 /\
  exists task_id,
    task_id ∈ ["style"; "qa"; "semantic"] /\
    tool_fn t = profile_search env task_id.
Proof.
  intros H. apply list_elem_of_In in H. simpl in H.
  destruct H as [<- | [<- | [<- | []]]]; (split; [reflexivity |]).
  - exists "style". split; [set_solver | reflexivity].
  - exists "qa". split; [set_solver | reflexivity].
  - exists "semantic". split; [set_solver | reflexivity].
Qed.

(** [_get_embedding] sends one request and hands back the first vector of
    the answer; whatever goes wrong is raised again. *)
Lemma _get_embedding_run (text : string) (m : Model) (st : State) :
  _get_embedding env text m st =
  (match embeddings_create env (trace st) (model m) (prefix m +:+ text +:+ suffix m) with
   | Ok response =>
       match data response with
       | item :: _ => Ok (embedding item)
       | [] => Raise (IndexError "list index out of range")
       end
   | Raise e => Raise e
   end,
   {| globals := globals st;
      trace := trace st ++ [EmbedRequest (model m) (prefix m +:+ text +:+ suffix m)] |}).
Proof.
  unfold _get_embedding, try_except, bind, openai_embeddings_create, lift, ret,
    raise, first_item, model_name.
  destruct (embeddings_create env (trace st) (model m) _) as [[[| item rest]] | e];
    reflexivity.
Qed.

(** [_search_database] when the metric of the model is in both tables. *)
Lemma _search_database_run (v : Vector) (m : Model) (task : Task) (top_k : Z)
    (st : State) (operator order_direction : string) :
  g_DISTANCE_OPERATORS (globals st) !! distance_metric m = Some operator ->
  g_DISTANCE_ORDER (globals st) !! distance_metric m = Some order_direction ->
  let statement := search_statement operator order_direction in
  let params := mkParams (model m) (name task) v top_k in
  _search_database env v m task top_k st =
  (match execute_fetchall env (trace st) statement params with
   | Ok rows => Ok (map row_to_dict rows)
   | Raise e => Raise e
   end,
   {| globals := globals st; trace := trace st ++ [StoreQuery statement params] |}).
Proof.
  intros Hop Hdir statement params.
  unfold _search_database, try_except, bind, global_getitem, getitem.
  rewrite Hop, Hdir. unfold lift. rewrite format_SEARCH_QUERY.
  unfold cursor_execute_fetchall, ret, raise, model_name.
  fold statement. fold params.
  destruct (execute_fetchall env (trace st) statement params); reflexivity.
Qed.

(** The search of a profile whose model, task and metric resolve. *)
Lemma profile_search_run (task_id query : string) (top_k : Z) (st : State)
    (m : Model) (task : Task) (operator order_direction : string) :
  g_MODELS (globals st) !! task_id = Some m ->
  g_TASKS (globals st) !! task_id = Some task ->
  g_DISTANCE_OPERATORS (globals st) !! distance_metric m = Some operator ->
  g_DISTANCE_ORDER (globals st) !! distance_metric m = Some order_direction ->
  let text := prefix m +:+ query +:+ suffix m in
  let sent := (trace st ++ [EmbedRequest (model m) text])%list in
  let statement := search_statement operator order_direction in
  profile_search env task_id query top_k st =
  match embeddings_create env (trace st) (model m) text with
  | Raise e =>
      (Ok ("Search failed: " +:+ str_exn e), mkState (globals st) sent)
  | Ok response =>
      match data response with
      | [] =>
          (Ok ("Search failed: list index out of range"), mkState (globals st) sent)
      | item :: _ =>
          let params := mkParams (model m) (name task) (embedding item) top_k in
          (match execute_fetchall env sent statement params with
           | Ok rows => Ok (_format_results (map row_to_dict rows))
           | Raise e => Ok ("Search failed: " +:+ str_exn e)
           end,
           mkState (globals st) (sent ++ [StoreQuery statement params])%list)
      end
  end.
Proof.
  intros Hm Htask Hop Hdir text sent statement.
  unfold profile_search, search_body, try_except, bind at 1.
  unfold global_getitem at 1, getitem. rewrite Hm.
  unfold bind at 1. unfold global_getitem at 1, getitem. rewrite Htask.
  unfold bind at 1. rewrite _get_embedding_run. fold text. fold sent.
  destruct (embeddings_create env (trace st) (model m) text) as [[[| item rest]] | e];
    cbn [data]; try reflexivity.
  unfold bind.
  rewrite (_search_database_run _ _ _ _ _ operator order_direction) by assumption.
  cbn [trace globals]. fold statement.
  destruct (execute_fetchall env sent statement _); reflexivity.
Qed.

End Run.

(** ** Registry and metric tables *)

(** C5. For every task identifier of the registry, the distance metric of
    its model has an entry in the operator table and in the sort-direction
    table, so both lookups of [_search_database] succeed in the state the
    module sets up. *)
Theorem registry_metrics_resolve (task_id : string) (m : Model) :
  MODELS !! task_id = Some m ->
  is_Some (DISTANCE_OPERATORS !! distance_metric m) /\
  is_Some (DISTANCE_ORDER !! distance_metric m) /\
  forall st, globals st = module_globals ->
    exists operator order_direction,
      global_getitem g_DISTANCE_OPERATORS (distance_metric m) st = (Ok operator, st) /\
      global_getitem g_DISTANCE_ORDER (distance_metric m) st = (Ok order_direction, st).
Proof.
  intros Hm. rewrite (MODELS_cosine _ _ Hm).
  rewrite DISTANCE_OPERATORS_cosine, DISTANCE_ORDER_cosine.
  split; [eauto |]. split; [eauto |].
  intros st Hst. exists "<=>", "ASC".
  unfold global_getitem, getitem. rewrite Hst. cbn [module_globals g_DISTANCE_OPERATORS g_DISTANCE_ORDER].
  rewrite DISTANCE_OPERATORS_cosine, DISTANCE_ORDER_cosine. split; reflexivity.
Qed.

Lemma registry_metrics_resolve_witness :
  MODELS !! "similar_code"
  = Some (mkModel "hamidakach/nomic-embed-text-v1.5-GGUF" "clustering: " EmptyString "cosine") /\
  is_Some (DISTANCE_OPERATORS !! "cosine") /\
  is_Some (DISTANCE_ORDER !! "cosine").
Proof.
  split; [exact MODELS_similar_code |].
  pose proof (registry_metrics_resolve "similar_code" _ MODELS_similar_code) as (H1 & H2 & _).
  split; [exact H1 | exact H2].
Defined.

(** ** The embedding client *)

(** C6. [_get_embedding] sends exactly [prefix + text + suffix] as the input
    and the model's identifier as the model, sends nothing else, and returns
    the vector of the backend's answer as it is; an error of the backend is
    raised unchanged. *)
Theorem get_embedding_sends_framed_text (env : Env) (text : string) (m : Model)
    (st : State) :
  let framed := prefix m +:+ text +:+ suffix m in
  trace (snd (_get_embedding env text m st))
  = (trace st ++ [EmbedRequest (model m) framed])%list /\
  (forall item rest,
      embeddings_create env (trace st) (model m) framed = Ok (mkResponse (item :: rest)) ->
      fst (_get_embedding env text m st) = Ok (embedding item)) /\
  (forall e,
      embeddings_create env (trace st) (model m) framed = Raise e ->
      fst (_get_embedding env text m st) = Raise e).
Proof.
  intros framed. rewrite _get_embedding_run. fold framed. cbn [fst snd trace].
  split; [reflexivity |]. split.
  - intros item rest ->. reflexivity.
  - intros e ->. reflexivity.
Qed.

Lemma get_embedding_sends_framed_text_witness :
  let env := Store.env_of [1 # 2; 3 # 4]%Q [] in
  let m := mkModel "nomic-embed-text:v1.5" "search_query: " "?" "cosine" in
  embeddings_create env [] (model m) "search_query: refund policy?"
  = Ok (mkResponse [mkEmbedding [1 # 2; 3 # 4]%Q]) /\
  trace (snd (_get_embedding env "refund policy" m initial_state))
  = [EmbedRequest "nomic-embed-text:v1.5" "search_query: refund policy?"] /\
  fst (_get_embedding env "refund policy" m initial_state) = Ok [1 # 2; 3 # 4]%Q.
Proof.
  intros env m.
  pose proof (get_embedding_sends_framed_text env "refund policy" m initial_state)
    as (Htrace & Hok & _).
  split; [reflexivity |]. split; [exact Htrace |].
  apply (Hok (mkEmbedding [1 # 2; 3 # 4]%Q) []). reflexivity.
Defined.

(** ** The result formatter *)

Lemma append_assoc (a b c : string) : (a +:+ b) +:+ c = a +:+ b +:+ c.
Proof.
  induction a as [| x a IH]; [reflexivity |].
  change (String x ((a +:+ b) +:+ c) = String x (a +:+ b +:+ c)).
  rewrite IH. reflexivity.
Qed.

Lemma format_loop_acc (results : list MatchRecord) (i : Z) (acc : list string) :
  format_loop i results acc = (acc ++ format_loop i results [])%list.
Proof.
  revert i acc. induction results as [| r rs IH]; intros i acc; cbn [format_loop].
  - symmetry. apply app_nil_r.
  - rewrite (IH _ (acc ++ _)%list), (IH _ ([] ++ _)%list).
    rewrite <- app_assoc. reflexivity.
Qed.

Lemma format_loop_cons (r : MatchRecord) (rs : list MatchRecord) (i : Z) :
  format_loop i (r :: rs) [] = format_part i r :: format_loop (i + 1) rs [].
Proof. cbn [format_loop]. rewrite format_loop_acc. reflexivity. Qed.

Lemma format_loop_length (results : list MatchRecord) (i : Z) :
  length (format_loop i results []) = length results.
Proof.
  revert i. induction results as [| r rs IH]; intros i; [reflexivity |].
  rewrite format_loop_cons. cbn [length]. rewrite IH. reflexivity.
Qed.

Lemma format_loop_lookup (results : list MatchRecord) (i : Z) (k : nat) (r : MatchRecord) :
  results !! k = Some r ->
  format_loop i results [] !! k = Some (format_part (i + Z.of_nat k) r).
Proof.
  revert i k. induction results as [| r0 rs IH]; intros i k Hk; [discriminate |].
  rewrite format_loop_cons. destruct k as [| k].
  - injection Hk as ->. cbn. rewrite Z.add_0_r. reflexivity.
  - change (rs !! k = Some r) in Hk.
    change (format_loop (i + 1) rs [] !! k = Some (format_part (i + Z.of_nat (S k)) r)).
    rewrite (IH (i + 1) k Hk). do 2 f_equal. lia.
Qed.

(** C7. For the empty list the formatter returns the fixed message, which
    is not the empty string; the formatter is a total function and raises
    nothing. *)
Theorem format_results_empty :
  _format_results [] = "No relevant information found in the knowledge base." /\
  _format_results [] <> EmptyString.
Proof. split; [reflexivity | discriminate]. Qed.

(** C8. For a non-empty list the formatter joins one entry per record, in
    the order of the list; the entry at position [i] carries the number
    [i + 1], and the name, the id and the content of the record at that
    position as they are. *)
Theorem format_results_numbered_in_order (results : list MatchRecord) :
  results <> [] ->
  exists entries : list string,
    _format_results results = join nl entries /\
    length entries = length results /\
    forall (i : nat) (r : MatchRecord),
      results !! i = Some r ->
      exists entry,
        entries !! i = Some entry /\
        entry =
          "--- Result " +:+ str_int (Z.of_nat i + 1) +:+ " | " +:+ doc_name r
            +:+ " | " +:+ doc_id r +:+ " ---" +:+ nl
            +:+ "--- Document Start ---" +:+ nl
            +:+ "Content: " +:+ matching_content r +:+ nl
            +:+ "--- Document End ---" +:+ nl /\
        occurs_in (doc_name r) entry /\
        occurs_in (doc_id r) entry /\
        occurs_in (matching_content r) entry.
Proof.
  intros Hne. exists (format_loop 1 results []). split; [| split].
  - destruct results; [contradiction | reflexivity].
  - apply format_loop_length.
  - intros i r Hi. eexists. split; [| split; [reflexivity |]].
    + rewrite (format_loop_lookup _ 1 i r Hi), Z.add_comm. reflexivity.
    + unfold format_part. repeat split.
      * exists ("--- Result " +:+ str_int (Z.of_nat i + 1) +:+ " | "). eexists.
        rewrite !append_assoc. reflexivity.
      * exists ("--- Result " +:+ str_int (Z.of_nat i + 1) +:+ " | " +:+ doc_name r +:+ " | ").
        eexists. rewrite !append_assoc. reflexivity.
      * exists ("--- Result " +:+ str_int (Z.of_nat i + 1) +:+ " | " +:+ doc_name r +:+ " | "
                  +:+ doc_id r +:+ " ---" +:+ nl +:+ "--- Document Start ---" +:+ nl
                  +:+ "Content: ").
        eexists. rewrite !append_assoc. reflexivity.
Qed.

Lemma format_results_numbered_in_order_witness :
  let results :=
    [ mkMatch "42" "policy.md" "Refunds within 30 days.";
      mkMatch "7" "faq.md" "Contact support for refunds." ] in
  results <> [] /\
  exists entries : list string,
    _format_results results = join nl entries /\ length entries = 2%nat.
Proof.
  intros results.
  assert (Hne : results <> []) by discriminate.
  split; [exact Hne |].
  destruct (format_results_numbered_in_order results Hne) as (entries & Hjoin & Hlen & _).
  exists entries. split; [exact Hjoin | exact Hlen].
Defined.

(** The rows of the store reach the formatter in the order of the answer. *)
Lemma search_database_keeps_row_order (env : Env) (v : Vector) (m : Model) (task : Task)
    (top_k : Z) (st : State) (rows : list Row) (operator order_direction : string) :
  g_DISTANCE_OPERATORS (globals st) !! distance_metric m = Some operator ->
  g_DISTANCE_ORDER (globals st) !! distance_metric m = Some order_direction ->
  execute_fetchall env (trace st) (search_statement operator order_direction)
    (mkParams (model m) (name task) v top_k) = Ok rows ->
  fst (_search_database env v m task top_k st) = Ok (map row_to_dict rows).
Proof.
  intros Hop Hdir Hrows.
  rewrite (_search_database_run env v m task top_k st _ _ Hop Hdir).
  cbn [fst]. rewrite Hrows. reflexivity.
Qed.

(** ** The tools *)

(** A search of one of the three published profiles, in a state with the
    tables of the module. *)
Lemma published_search_run (env : Env) (task_id query : string) (top_k : Z) (st : State) :
  task_id ∈ ["style"; "qa"; "semantic"] ->
  globals st = module_globals ->
  exists (m : Model) (task : Task),
    MODELS !! task_id = Some m /\ TASKS !! task_id = Some task /\
    let text := prefix m +:+ query +:+ suffix m in
    let sent := (trace st ++ [EmbedRequest (model m) text])%list in
    profile_search env task_id query top_k st =
    match embeddings_create env (trace st) (model m) text with
    | Raise e =>
        (Ok ("Search failed: " +:+ str_exn e), mkState (globals st) sent)
    | Ok response =>
        match data response with
        | [] =>
            (Ok ("Search failed: list index out of range"), mkState (globals st) sent)
        | item :: _ =>
            let params := mkParams (model m) (name task) (embedding item) top_k in
            (match execute_fetchall env sent cosine_statement params with
             | Ok rows => Ok (_format_results (map row_to_dict rows))
             | Raise e => Ok ("Search failed: " +:+ str_exn e)
             end,
             mkState (globals st) (sent ++ [StoreQuery cosine_statement params])%list)
        end
    end.
Proof.
  intros Hin Hst.
  assert (exists m task, MODELS !! task_id = Some m /\ TASKS !! task_id = Some task)
    as (m & task & Hm & Htask).
  { apply list_elem_of_In in Hin. simpl in Hin.
    destruct Hin as [<- | [<- | [<- | []]]]; do 2 eexists; split; vm_compute; reflexivity. }
  exists m, task. split; [exact Hm |]. split; [exact Htask |].
  intros text sent. rewrite <- search_statement_cosine.
  apply profile_search_run; rewrite Hst; cbn [module_globals g_MODELS g_TASKS
    g_DISTANCE_OPERATORS g_DISTANCE_ORDER]; try assumption;
    rewrite (MODELS_cosine _ _ Hm).
  - exact DISTANCE_OPERATORS_cosine.
  - exact DISTANCE_ORDER_cosine.
Qed.

(** Every registered tool runs one of the three published profiles. *)
Lemma mcp_tools_runs_profile (env : Env) (t : Tool) :
  t ∈ mcp_tools env ->
  exists task_id, task_id ∈ ["style"; "qa"; "semantic"] /\ runs_profile env t task_id.
Proof.
  intros Hin. destruct (mcp_tools_profile env t Hin) as (_ & task_id & Hid & Hfn).
  exists task_id. split; [exact Hid |]. split; [exact Hin |].
  intros query top_k st. rewrite Hfn. reflexivity.
Qed.

(** C1, as the code has it.  A tool does not look at [top_k]: with
    [top_k <= 0], in a state with the tables of the module, it sends the
    framed query to the embedding backend and, when a vector comes back,
    issues the store query with [top_k] unchanged as the limit; what it
    returns is the formatted answer of the store, or the failure string of
    whatever the backend or the store raised. *)
Theorem search_passes_top_k_unchecked (env : Env) (t : Tool) (task_id : string)
    (m : Model) (task : Task) (query : string) (top_k : Z) (st : State) :
  runs_profile env t task_id ->
  MODELS !! task_id = Some m ->
  TASKS !! task_id = Some task ->
  top_k <= 0 ->
  globals st = module_globals ->
  let text := prefix m +:+ query +:+ suffix m in
  let request := EmbedRequest (model m) text in
  let run := tool_fn t query top_k st in
  match embeddings_create env (trace st) (model m) text with
  | Ok response =>
      match data response with
      | item :: _ =>
          let params := mkParams (model m) (name task) (embedding item) top_k in
          trace (snd run)
          = ((trace st ++ [request]) ++ [StoreQuery cosine_statement params])%list /\
          fst run
          = match execute_fetchall env (trace st ++ [request])%list cosine_statement params with
            | Ok rows => Ok (_format_results (map row_to_dict rows))
            | Raise e => Ok ("Search failed: " +:+ str_exn e)
            end
      | [] =>
          trace (snd run) = (trace st ++ [request])%list /\
          fst run = Ok ("Search failed: list index out of range")
      end
  | Raise e =>
      trace (snd run) = (trace st ++ [request])%list /\
      fst run = Ok ("Search failed: " +:+ str_exn e)
  end.
Proof.
  intros [_ Hrun] Hm Htask _ Hst text request run. subst run. rewrite Hrun.
  rewrite (profile_search_run env task_id query top_k st m task "<=>" "ASC").
  - fold text. fold request. rewrite search_statement_cosine.
    destruct (embeddings_create env (trace st) (model m) text) as [[[| item rest]] | e];
      cbn [data fst snd trace]; split; reflexivity.
  - rewrite Hst. exact Hm.
  - rewrite Hst. exact Htask.
  - rewrite Hst, (MODELS_cosine _ _ Hm). exact DISTANCE_OPERATORS_cosine.
  - rewrite Hst, (MODELS_cosine _ _ Hm). exact DISTANCE_ORDER_cosine.
Qed.

Lemma search_passes_top_k_unchecked_witness :
  let env := answering_env [1 # 2]%Q [] in
  let t := mkTool "search_style" "Search for content clustered by theme or style"
             3 (search_style env) in
  runs_profile env t "style" /\
  0 <= 0 /\
  trace (snd (search_style env "tone" 0 initial_state))
  = [ EmbedRequest "nomic-embed-text:v1.5" "classification: tone";
      StoreQuery cosine_statement
        (mkParams "nomic-embed-text:v1.5" "style" [1 # 2]%Q 0) ] /\
  fst (search_style env "tone" 0 initial_state) = Ok no_results_message.
Proof.
  intros env t.
  assert (Ht : runs_profile env t "style").
  { split; [apply list_elem_of_here | reflexivity]. }
  split; [exact Ht |]. split; [lia |].
  pose proof (search_passes_top_k_unchecked env t "style" _ (mkTask "style" _)
                "tone" 0 initial_state Ht MODELS_style eq_refl (Z.le_refl 0) eq_refl)
    as H.
  exact H.
Defined.

(** C1, as the claim has it, fails: with [top_k = 0] the tool contacts the
    embedding backend and the store, and returns the message for an empty
    answer instead of a failure. *)
Lemma search_style_top_k_zero_contacts_backend :
  let env := answering_env [1 # 2]%Q [] in
  trace (snd (search_style env "tone" 0 initial_state))
  = [ EmbedRequest "nomic-embed-text:v1.5" "classification: tone";
      StoreQuery cosine_statement
        (mkParams "nomic-embed-text:v1.5" "style" [1 # 2]%Q 0) ] /\
  fst (search_style env "tone" 0 initial_state)
  = Ok "No relevant information found in the knowledge base." /\
  ~ fails_without_contact (search_style env "tone" 0) initial_state.
Proof.
  intros env. split; [vm_compute; reflexivity |]. split; [vm_compute; reflexivity |].
  intros [Htrace _]. vm_compute in Htrace. discriminate Htrace.
Qed.

Lemma TASKS_similar_code :
  TASKS !! "similar_code" = Some (mkTask "similar_code" "Search for similar code snippets").
Proof. vm_compute. reflexivity. Qed.

(** C3, as the claim has it, fails: [similar_code] is a key of both
    [MODELS] and [TASKS], and no registered tool runs its search. *)
Lemma similar_code_has_no_tool :
  "similar_code" ∈ dom MODELS /\
  "similar_code" ∈ dom TASKS /\
  ~ offers_operation "similar_code".
Proof.
  split; [apply elem_of_dom; rewrite MODELS_similar_code; eauto |].
  split; [apply elem_of_dom; rewrite TASKS_similar_code; eauto |].
  intros H. destruct (H (answering_env [1 # 2]%Q [])) as (t & [Hin Hrun] & _).
  destruct (mcp_tools_profile _ t Hin) as (_ & task_id & Hid & Hfn).
  specialize (Hrun "tone" 3 initial_state). rewrite Hfn in Hrun.
  apply (f_equal (fun r => trace (snd r))) in Hrun.
  apply list_elem_of_In in Hid. simpl in Hid.
  destruct Hid as [<- | [<- | [<- | []]]]; vm_compute in Hrun; discriminate Hrun.
Qed.

(** C3, as the code has it.  For each of the profiles [style], [qa] and
    [semantic] a tool is registered that runs the profile's search; it takes
    a query and a [top_k] that defaults to 3, and in a state with the tables
    of the module it returns the formatter's output for the rows the store
    answered, or else a failure string. *)
Theorem published_profiles_have_tools (task_id : string) :
  task_id ∈ ["style"; "qa"; "semantic"] ->
  offers_operation task_id /\
  forall env t query top_k st,
    runs_profile env t task_id ->
    globals st = module_globals ->
    call_tool t query top_k st = tool_fn t query (default 3 top_k) st /\
    ((exists sent statement params rows,
         execute_fetchall env sent statement params = Ok rows /\
         fst (call_tool t query top_k st) = Ok (_format_results (map row_to_dict rows))) \/
     (exists msg, fst (call_tool t query top_k st) = Ok ("Search failed: " +:+ msg))).
Proof.
  intros Hid. split.
  - intros env. apply list_elem_of_In in Hid. simpl in Hid.
    destruct Hid as [<- | [<- | [<- | []]]].
    + exists (mkTool "search_style" "Search for content clustered by theme or style"
                3 (search_style env)).
      split; [split; [set_solver | reflexivity] | reflexivity].
    + exists (mkTool "search_qa" "Search optimized for question-answer pairs"
                3 (search_qa env)).
      split; [split; [set_solver | reflexivity] | reflexivity].
    + exists (mkTool "search_semantic_similarity" "Search based on semantic similarity"
                3 (search_semantic_similarity env)).
      split; [split; [set_solver | reflexivity] | reflexivity].
  - intros env t query top_k st [Hin Hrun] Hst.
    destruct (mcp_tools_profile env t Hin) as (Hdefault & _).
    unfold call_tool. rewrite Hdefault. split; [reflexivity |].
    rewrite Hrun.
    destruct (published_search_run env task_id query (default 3 top_k) st Hid Hst)
      as (m & task & _ & _ & ->).
    destruct (embeddings_create env (trace st) (model m) _) as [[[| item rest]] | e];
      cbn [data fst]; [right; eauto | | right; eauto].
    match goal with
    | |- context [execute_fetchall env ?sent ?statement ?params] =>
        destruct (execute_fetchall env sent statement params) as [rows | e] eqn:Hrows
    end; [left; eauto 6 | right; eauto].
Qed.

Lemma published_profiles_have_tools_witness :
  "qa" ∈ ["style"; "qa"; "semantic"] /\ offers_operation "qa".
Proof.
  assert (Hid : "qa" ∈ ["style"; "qa"; "semantic"]) by set_solver.
  split; [exact Hid |]. exact (proj1 (published_profiles_have_tools "qa" Hid)).
Defined.

(** A failure of the embedding backend comes back as a string, and the
    store is not queried. *)
Lemma backend_failure_reported (env : Env) (task_id query : string) (top_k : Z)
    (st : State) (m : Model) (e : exn) :
  task_id ∈ ["style"; "qa"; "semantic"] ->
  globals st = module_globals ->
  MODELS !! task_id = Some m ->
  embeddings_create env (trace st) (model m) (prefix m +:+ query +:+ suffix m) = Raise e ->
  profile_search env task_id query top_k st
  = (Ok ("Search failed: " +:+ str_exn e),
     mkState (globals st)
       (trace st ++ [EmbedRequest (model m) (prefix m +:+ query +:+ suffix m)])).
Proof.
  intros Hid Hst Hm He.
  destruct (published_search_run env task_id query top_k st Hid Hst)
    as (m' & task & Hm' & _ & ->).
  assert (m' = m) as -> by congruence.
  rewrite He. reflexivity.
Qed.

(** A profile that the registry does not know comes back as a string too,
    with nothing sent. *)
Lemma unknown_profile_reported (env : Env) (task_id query : string) (top_k : Z)
    (st : State) :
  g_MODELS (globals st) !! task_id = None ->
  profile_search env task_id query top_k st
  = (Ok ("Search failed: " +:+ repr task_id), st).
Proof.
  intros Hnone.
  unfold profile_search, search_body, try_except, bind, global_getitem, getitem.
  rewrite Hnone. reflexivity.
Qed.

(** C4. No tool raises: for every input and every state it returns a
    string, and whenever its [try] block raises an exception [e], whether
    from a table lookup, the embedding backend or the store, the string is
    ["Search failed: "] followed by [str(e)]. *)
Theorem search_never_raises (env : Env) (t : Tool) (query : string) (top_k : Z)
    (st : State) :
  t ∈ mcp_tools env ->
  (exists s, fst (tool_fn t query top_k st) = Ok s) /\
  forall task_id,
    runs_profile env t task_id ->
    match search_body env task_id query top_k st with
    | (Ok s, st') => tool_fn t query top_k st = (Ok s, st')
    | (Raise e, st') =>
        tool_fn t query top_k st = (Ok ("Search failed: " +:+ str_exn e), st')
    end.
Proof.
  intros Hin.
  assert (Hbody : forall task_id,
             match search_body env task_id query top_k st with
             | (Ok s, st') => profile_search env task_id query top_k st = (Ok s, st')
             | (Raise e, st') =>
                 profile_search env task_id query top_k st
                 = (Ok ("Search failed: " +:+ str_exn e), st')
             end).
  { intros task_id. unfold profile_search, try_except.
    destruct (search_body env task_id query top_k st) as [[s | e] st']; reflexivity. }
  split.
  - destruct (mcp_tools_profile env t Hin) as (_ & task_id & _ & ->).
    specialize (Hbody task_id).
    destruct (search_body env task_id query top_k st) as [[s | e] st'];
      rewrite Hbody; eauto.
  - intros task_id [_ Hrun]. rewrite Hrun. apply Hbody.
Qed.

Lemma search_never_raises_witness :
  let env := backend_down_env [] in
  let t := mkTool "search_style" "Search for content clustered by theme or style"
             3 (search_style env) in
  t ∈ mcp_tools env /\
  fst (search_style env "tone" 3 initial_state) = Ok "Search failed: Request timed out.".
Proof.
  intros env t.
  assert (Hin : t ∈ mcp_tools env) by apply list_elem_of_here.
  split; [exact Hin |].
  destruct (search_never_raises env t "tone" 3 initial_state Hin) as [_ H].
  specialize (H "style" (conj Hin (fun _ _ _ => eq_refl))).
  exact (f_equal fst H).
Defined.

(** ** The tables are only read *)

Lemma keeps_ret {A : Type} (a : A) : keeps_globals (ret a).
Proof. intros st. reflexivity. Qed.

Lemma keeps_raise {A : Type} (e : exn) : keeps_globals (@raise A e).
Proof. intros st. reflexivity. Qed.

Lemma keeps_lift {A : Type} (r : result A) : keeps_globals (lift r).
Proof. intros st. reflexivity. Qed.

Lemma keeps_global_getitem {V : Type} (table : Globals -> gmap string V) (key : string) :
  keeps_globals (global_getitem table key).
Proof. intros st. reflexivity. Qed.

Lemma keeps_openai_embeddings_create (env : Env) (model_id input : string) :
  keeps_globals (openai_embeddings_create env model_id input).
Proof. intros st. reflexivity. Qed.

Lemma keeps_cursor_execute_fetchall (env : Env) (statement : string) (params : QueryParams) :
  keeps_globals (cursor_execute_fetchall env statement params).
Proof. intros st. reflexivity. Qed.

Lemma keeps_bind {A B : Type} (m : M A) (k : A -> M B) :
  keeps_globals m -> (forall a, keeps_globals (k a)) -> keeps_globals (bind m k).
Proof.
  intros Hm Hk st. unfold bind. specialize (Hm st).
  destruct (m st) as [[a | e] st']; cbn [snd] in *.
  - rewrite Hk. exact Hm.
  - exact Hm.
Qed.

Lemma keeps_try_except {A : Type} (body : M A) (handler : exn -> M A) :
  keeps_globals body -> (forall e, keeps_globals (handler e)) ->
  keeps_globals (try_except body handler).
Proof.
  intros Hbody Hhandler st. unfold try_except. specialize (Hbody st).
  destruct (body st) as [[a | e] st']; cbn [snd] in *.
  - exact Hbody.
  - rewrite Hhandler. exact Hbody.
Qed.

Ltac keeps :=
  repeat first
    [ apply keeps_ret | apply keeps_raise | apply keeps_lift
    | apply keeps_global_getitem | apply keeps_openai_embeddings_create
    | apply keeps_cursor_execute_fetchall
    | apply keeps_try_except; [| intros ?]
    | apply keeps_bind; [| intros ?] ].

Lemma keeps__get_embedding (env : Env) (text : string) (m : Model) :
  keeps_globals (_get_embedding env text m).
Proof. unfold _get_embedding. keeps. Qed.

Lemma keeps__search_database (env : Env) (v : Vector) (m : Model) (task : Task) (top_k : Z) :
  keeps_globals (_search_database env v m task top_k).
Proof. unfold _search_database. keeps. Qed.

Lemma keeps_profile_search (env : Env) (task_id query : string) (top_k : Z) :
  keeps_globals (profile_search env task_id query top_k).
Proof.
  unfold profile_search, search_body.
  apply keeps_try_except; [| intros e; apply keeps_ret].
  apply keeps_bind; [apply keeps_global_getitem | intros m].
  apply keeps_bind; [apply keeps_global_getitem | intros task].
  apply keeps_bind; [apply keeps__get_embedding | intros v].
  apply keeps_bind; [apply keeps__search_database | intros results].
  apply keeps_ret.
Qed.

Lemma keeps_handle (env : Env) (r : Request) (st : State) :
  globals (handle env r st) = globals st.
Proof.
  unfold handle. destruct (mcp_tools env !! req_tool r) as [t |] eqn:Ht; [| reflexivity].
  apply list_elem_of_lookup_2 in Ht.
  destruct (mcp_tools_profile env t Ht) as (_ & task_id & _ & Hfn).
  unfold call_tool. rewrite Hfn. apply keeps_profile_search.
Qed.

Lemma keeps_serve (env : Env) (requests : list Request) (st : State) :
  globals (serve env requests st) = globals st.
Proof.
  revert st. induction requests as [| r rs IH]; intros st; [reflexivity |].
  cbn [serve fold_left]. fold (serve env rs (handle env r st)).
  rewrite IH. apply keeps_handle.
Qed.

(** C9. A call of a tool leaves the four tables as they were, and so they
    are, after any sequence of requests, what the module set up at import:
    [MODELS], [TASKS], [DISTANCE_OPERATORS] and [DISTANCE_ORDER]. *)
Theorem search_keeps_tables (env : Env) (t : Tool) (query : string) (top_k : option Z)
    (st : State) :
  t ∈ mcp_tools env ->
  globals (snd (call_tool t query top_k st)) = globals st /\
  forall requests,
    let st' := serve env requests initial_state in
    g_MODELS (globals st') = MODELS /\
    g_TASKS (globals st') = TASKS /\
    g_DISTANCE_OPERATORS (globals st') = DISTANCE_OPERATORS /\
    g_DISTANCE_ORDER (globals st') = DISTANCE_ORDER.
Proof.
  intros Hin. split.
  - destruct (mcp_tools_profile env t Hin) as (_ & task_id & _ & Hfn).
    unfold call_tool. rewrite Hfn. apply keeps_profile_search.
  - intros requests st'. subst st'. rewrite keeps_serve. repeat split; reflexivity.
Qed.

Lemma search_keeps_tables_witness :
  let env := answering_env [1 # 2]%Q [mkRow (SqlInt 42) "policy.md" "Refunds within 30 days."] in
  let t := mkTool "search_qa" "Search optimized for question-answer pairs" 3 (search_qa env) in
  t ∈ mcp_tools env /\
  globals (snd (call_tool t "What is the refund policy?" (Some 2) initial_state))
  = module_globals.
Proof.
  intros env t.
  assert (Hin : t ∈ mcp_tools env) by (apply list_elem_of_further, list_elem_of_here).
  split; [exact Hin |].
  exact (proj1 (search_keeps_tables env t "What is the refund policy?" (Some 2)
                  initial_state Hin)).
Defined.

(** ** Only the cosine metric is in use *)

Lemma handle_cosine_only (env : Env) (r : Request) (st : State) :
  globals st = module_globals ->
  Forall cosine_only (trace st) ->
  Forall cosine_only (trace (handle env r st)).
Proof.
  intros Hst Htrace. unfold handle.
  destruct (mcp_tools env !! req_tool r) as [t |] eqn:Ht; [| exact Htrace].
  apply list_elem_of_lookup_2 in Ht.
  destruct (mcp_tools_profile env t Ht) as (_ & task_id & Hid & Hfn).
  unfold call_tool. rewrite Hfn.
  destruct (published_search_run env task_id (req_query r)
              (default (tool_top_k_default t) (req_top_k r)) st Hid Hst)
    as (m & task & _ & _ & ->).
  destruct (embeddings_create env (trace st) (model m) _) as [[[| item rest]] | e];
    cbn [data snd trace];
    repeat (apply Forall_app; split); try exact Htrace;
    repeat constructor.
Qed.

Lemma serve_cosine_only (env : Env) (requests : list Request) (st : State) :
  globals st = module_globals ->
  Forall cosine_only (trace st) ->
  Forall cosine_only (trace (serve env requests st)).
Proof.
  revert st. induction requests as [| r rs IH]; intros st Hst Htrace; [exact Htrace |].
  cbn [serve fold_left]. fold (serve env rs (handle env r st)).
  apply IH.
  - rewrite keeps_handle. exact Hst.
  - apply handle_cosine_only; assumption.
Qed.

(** C10. Every model of the registry has the metric ["cosine"], which is
    what the dataclass gives when no metric is passed, and which resolves to
    the operator ["<=>"] and the direction ["ASC"]; so every statement that
    the tools send to the store, over any sequence of requests, is the one
    with [<=>] and [ASC], and never the one of [inner_product] or of [l2]. *)
Theorem reachable_searches_use_cosine :
  (forall task_id m,
      MODELS !! task_id = Some m ->
      distance_metric m = "cosine" /\
      DISTANCE_OPERATORS !! distance_metric m = Some "<=>" /\
      DISTANCE_ORDER !! distance_metric m = Some "ASC") /\
  (forall model_id prefix suffix,
      distance_metric (Model_init model_id prefix suffix None) = "cosine") /\
  (forall env requests,
      Forall cosine_only (trace (serve env requests initial_state))) /\
  cosine_statement = search_statement "<=>" "ASC" /\
  cosine_statement <> search_statement "<#>" "DESC" /\
  cosine_statement <> search_statement "<->" "ASC".
Proof.
  split; [| split; [| split; [| split; [| split]]]].
  - intros task_id m Hm. rewrite (MODELS_cosine _ _ Hm).
    split; [reflexivity |].
    split; [exact DISTANCE_OPERATORS_cosine | exact DISTANCE_ORDER_cosine].
  - reflexivity.
  - intros env requests. apply serve_cosine_only; [reflexivity | constructor].
  - reflexivity.
  - intros H. vm_compute in H. discriminate H.
  - intros H. vm_compute in H. discriminate H.
Qed.

Lemma reachable_searches_use_cosine_witness :
  MODELS !! "qa"
  = Some (mkModel "nomic-embed-text:v1.5" "search_query: " EmptyString "cosine") /\
  DISTANCE_OPERATORS !! "cosine" = Some "<=>" /\
  DISTANCE_ORDER !! "cosine" = Some "ASC".
Proof.
  split; [exact MODELS_qa |].
  destruct reachable_searches_use_cosine as [H _].
  destruct (H "qa" _ MODELS_qa) as (_ & Hop & Hdir).
  split; [exact Hop | exact Hdir].
Defined.

(** ** The inner-product metric *)

Lemma before_total (d : Store.direction) (x y : Q) :
  Store.before d x y = false -> Store.before d y x = true.
Proof.
  destruct d; cbn [Store.before]; intros H; apply Qle_bool_iff.
  - destruct (Qlt_le_dec x y) as [Hlt | Hle]; [| exact Hle].
    apply Qlt_le_weak, Qle_bool_iff in Hlt. congruence.
  - destruct (Qlt_le_dec y x) as [Hlt | Hle]; [| exact Hle].
    apply Qlt_le_weak, Qle_bool_iff in Hlt. congruence.
Qed.

Lemma insert_by_sorted {A : Type} (d : Store.direction) (key : A -> Q) (x : A)
    (l : list A) :
  Sorted (fun a b => Store.before d (key a) (key b) = true) l ->
  Sorted (fun a b => Store.before d (key a) (key b) = true) (Store.insert_by d key x l).
Proof.
  induction 1 as [| y l Hl IH Hhd]; cbn [Store.insert_by].
  - repeat constructor.
  - destruct (Store.before d (key x) (key y)) eqn:Hxy.
    + repeat constructor; assumption.
    + constructor; [exact IH |].
      destruct Hhd as [| z l Hyz]; cbn [Store.insert_by].
      * constructor. apply before_total. exact Hxy.
      * destruct (Store.before d (key x) (key z)); constructor;
          [apply before_total; exact Hxy | exact Hyz].
Qed.

Lemma order_by_sorted {A : Type} (d : Store.direction) (key : A -> Q) (l : list A) :
  Sorted (fun a b => Store.before d (key a) (key b) = true) (Store.order_by d key l).
Proof.
  induction l as [| x l IH]; cbn [Store.order_by fold_right]; [constructor |].
  apply insert_by_sorted. exact IH.
Qed.

Lemma Sorted_weaken {A : Type} (R S : A -> A -> Prop) (l : list A) :
  (forall a b, R a b -> S a b) -> Sorted R l -> Sorted S l.
Proof.
  intros HRS. induction 1 as [| x l Hl IH Hhd]; constructor; [exact IH |].
  destruct Hhd; constructor; auto.
Qed.

(** With the operator [<#>] and the direction [DESC], which is what the two
    tables give for [inner_product], the store ranks every table by
    ascending raw inner product: each row is at most as similar to the query
    as the row after it. *)
Lemma inner_product_ranking_ascends (q : Vector) (chunks : list Store.Chunk) :
  Sorted
    (fun a b =>
       (Store.inner_product (Store.e_embedding a) q
        <= Store.inner_product (Store.e_embedding b) q)%Q)
    (Store.order_by Store.DESC
       (fun c => Store.neg_inner_product (Store.e_embedding c) q) chunks).
Proof.
  eapply Sorted_weaken; [| apply order_by_sorted].
  intros a b H. cbn [Store.before] in H. apply Qle_bool_iff in H.
  unfold Store.neg_inner_product in H. apply Qopp_le_compat in H.
  rewrite !Qopp_involutive in H. exact H.
Qed.

(** C2, evaluated.  For a model with the metric ["inner_product"] the
    statement orders by [<#>] with [DESC]; against a store in which [<#>] is
    the negative inner product, the chunk with the lower raw inner product
    comes first, and with [top_k = 1] it is the only one returned. *)
Theorem inner_product_search_ranks_least_similar_first :
  let env := Store.env_of ip_query [near_chunk; far_chunk] in
  (Store.inner_product (Store.e_embedding far_chunk) ip_query
   < Store.inner_product (Store.e_embedding near_chunk) ip_query)%Q /\
  trace (snd (_search_database env ip_query ip_model ip_task 2 initial_state))
  = [ StoreQuery (search_statement "<#>" "DESC") (mkParams "m" "t" ip_query 2) ] /\
  fst (_search_database env ip_query ip_model ip_task 2 initial_state)
  = Ok [ mkMatch "1" "far.md" "far"; mkMatch "2" "near.md" "near" ] /\
  fst (_search_database env ip_query ip_model ip_task 1 initial_state)
  = Ok [ mkMatch "1" "far.md" "far" ].
Proof.
  intros env. repeat split; vm_compute; reflexivity.
Qed.

(** ** A whole search *)

(** The store's rows come out of a tool in the order of the answer, numbered
    from 1, with their content as it is. *)
Example search_qa_refund_policy :
  let env :=
    answering_env [1 # 2; 3 # 4]%Q
      [ mkRow (SqlInt 42) "policy.md" "Refunds within 30 days.";
        mkRow (SqlInt 7) "faq.md" "Contact support for refunds." ] in
  fst (search_qa env "What is the refund policy?" 2 initial_state)
  = Ok ("--- Result 1 | policy.md | 42 ---" +:+ nl
        +:+ "--- Document Start ---" +:+ nl
        +:+ "Content: Refunds within 30 days." +:+ nl
        +:+ "--- Document End ---" +:+ nl
        +:+ nl
        +:+ "--- Result 2 | faq.md | 7 ---" +:+ nl
        +:+ "--- Document Start ---" +:+ nl
        +:+ "Content: Contact support for refunds." +:+ nl
        +:+ "--- Document End ---" +:+ nl) /\
  trace (snd (search_qa env "What is the refund policy?" 2 initial_state))
  = [ EmbedRequest "nomic-embed-text:v1.5" "search_query: What is the refund policy?";
      StoreQuery cosine_statement
        (mkParams "nomic-embed-text:v1.5" "qa" [1 # 2; 3 # 4]%Q 2) ].
Proof. intros env. split; vm_compute; reflexivity. Qed.

(** When the embedding backend times out, the caller gets the failure
    string and the store is not queried. *)
Example search_style_backend_down :
  let env := backend_down_env [mkRow (SqlInt 42) "policy.md" "Refunds within 30 days."] in
  fst (search_style env "tone" 3 initial_state) = Ok "Search failed: Request timed out." /\
  trace (snd (search_style env "tone" 3 initial_state))
  = [ EmbedRequest "nomic-embed-text:v1.5" "classification: tone" ].
Proof. intros env. split; vm_compute; reflexivity. Qed.

(** ** A call in any state *)

Section AnyState.

Variable env : Env.

Lemma _search_database_no_operator (v : Vector) (m : Model) (task : Task) (top_k : Z)
    (st : State) :
  g_DISTANCE_OPERATORS (globals st) !! distance_metric m = None ->
  _search_database env v m task top_k st = (Raise (KeyError (distance_metric m)), st).
Proof.
  intros Hop. unfold _search_database, try_except, bind, global_getitem, getitem.
  rewrite Hop. reflexivity.
Qed.

Lemma _search_database_no_order (v : Vector) (m : Model) (task : Task) (top_k : Z)
    (st : State) (operator : string) :
  g_DISTANCE_OPERATORS (globals st) !! distance_metric m = Some operator ->
  g_DISTANCE_ORDER (globals st) !! distance_metric m = None ->
  _search_database env v m task top_k st = (Raise (KeyError (distance_metric m)), st).
Proof.
  intros Hop Hdir. unfold _search_database, try_except, bind, global_getitem, getitem.
  rewrite Hop, Hdir. reflexivity.
Qed.

(** The outcome of a search in any state: it raises nothing, returns
    [search_result], keeps the tables and adds to the trace what
    [sent_by_call] allows. *)
Lemma profile_search_any_state (task_id query : string) (top_k : Z) (st : State) :
  exists sent,
    profile_search env task_id query top_k st
    = (Ok (search_result env (globals st) (trace st) task_id query top_k),
       mkState (globals st) (trace st ++ sent)) /\
    sent_by_call top_k sent.
Proof.
  destruct st as [g h]. cbn [globals trace].
  unfold profile_search, search_body, try_except, search_result.
  unfold bind at 1. unfold global_getitem at 1, getitem. cbn [globals].
  destruct (g_MODELS g !! task_id) as [m |];
    [| exists []; rewrite app_nil_r; split; [reflexivity | constructor]].
  unfold bind at 1. unfold global_getitem at 1, getitem. cbn [globals].
  destruct (g_TASKS g !! task_id) as [task |];
    [| exists []; rewrite app_nil_r; split; [reflexivity | constructor]].
  unfold bind at 1. rewrite _get_embedding_run. cbn [globals trace].
  set (text := prefix m +:+ query +:+ suffix m).
  destruct (embeddings_create env h (model m) text) as [[[| item rest]] | e];
    cbn [data];
    try (exists [EmbedRequest (model m) text]; split; [reflexivity | constructor]).
  unfold bind.
  destruct (g_DISTANCE_OPERATORS g !! distance_metric m) as [operator |] eqn:Hop.
  - destruct (g_DISTANCE_ORDER g !! distance_metric m) as [order_direction |] eqn:Hdir.
    + rewrite (_search_database_run env _ _ _ _ _ operator order_direction)
        by assumption.
      cbn [globals trace].
      exists [EmbedRequest (model m) text;
              StoreQuery (search_statement operator order_direction)
                (mkParams (model m) (name task) (embedding item) top_k)].
      split; [| constructor; reflexivity].
      rewrite <- app_assoc. cbn [app].
      destruct (execute_fetchall env _ _ _); reflexivity.
    + rewrite (_search_database_no_order _ _ _ _ _ operator) by assumption.
      exists [EmbedRequest (model m) text]. split; [reflexivity | constructor].
  - rewrite _search_database_no_operator by assumption.
    exists [EmbedRequest (model m) text]. split; [reflexivity | constructor].
Qed.

End AnyState.

Lemma sent_by_call_length (top_k : Z) (sent : list Event) :
  sent_by_call top_k sent -> (length sent <= 2)%nat.
Proof. destruct 1; cbn [length]; lia. Qed.

Lemma tool_any_state (env : Env) (t : Tool) (query : string) (top_k : Z) (st : State) :
  t ∈ mcp_tools env ->
  exists task_id sent,
    tool_fn t query top_k st
    = (Ok (search_result env (globals st) (trace st) task_id query top_k),
       mkState (globals st) (trace st ++ sent)) /\
    sent_by_call top_k sent.
Proof.
  intros Hin. destruct (mcp_tools_profile env t Hin) as (_ & task_id & _ & ->).
  exists task_id. apply profile_search_any_state.
Qed.

(** X1. Whatever the state, a call of a tool adds to the trace nothing, or
    one request to the embedding backend, or that request followed by one
    query to the store; the query is for the model of the request and
    carries the caller's [top_k]. *)
Theorem tool_call_requests (env : Env) (t : Tool) (query : string) (top_k : Z)
    (st : State) :
  t ∈ mcp_tools env ->
  exists sent,
    trace (snd (tool_fn t query top_k st)) = (trace st ++ sent)%list /\
    sent_by_call top_k sent.
Proof.
  intros Hin.
  destruct (tool_any_state env t query top_k st Hin) as (task_id & sent & -> & Hsent).
  exists sent. split; [reflexivity | exact Hsent].
Qed.

Lemma tool_call_requests_witness :
  let env := answering_env [1 # 2]%Q [] in
  let t := mkTool "search_style" "Search for content clustered by theme or style"
             3 (search_style env) in
  t ∈ mcp_tools env /\
  exists sent,
    trace (snd (search_style env "tone" 3 initial_state)) = sent /\
    sent_by_call 3 sent.
Proof.
  intros env t.
  assert (Hin : t ∈ mcp_tools env) by apply list_elem_of_here.
  split; [exact Hin |].
  exact (tool_call_requests env t "tone" 3 initial_state Hin).
Defined.

Lemma handle_sent (env : Env) (r : Request) (st : State) :
  exists sent,
    trace (handle env r st) = (trace st ++ sent)%list /\ (length sent <= 2)%nat.
Proof.
  unfold handle. destruct (mcp_tools env !! req_tool r) as [t |] eqn:Ht.
  - apply list_elem_of_lookup_2 in Ht. unfold call_tool.
    destruct (tool_any_state env t (req_query r)
                (default (tool_top_k_default t) (req_top_k r)) st Ht)
      as (task_id & sent & -> & Hsent).
    exists sent. split; [reflexivity | eapply sent_by_call_length; exact Hsent].
  - exists []. rewrite app_nil_r. split; [reflexivity | cbn; lia].
Qed.

(** X2. Over any sequence of requests the server only adds to the trace,
    and at most two requests per request served. *)
Theorem serve_requests_bounded (env : Env) (requests : list Request) (st : State) :
  exists sent,
    trace (serve env requests st) = (trace st ++ sent)%list /\
    (length sent <= 2 * length requests)%nat.
Proof.
  revert st. induction requests as [| r rs IH]; intros st.
  - exists []. rewrite app_nil_r. split; [reflexivity | cbn; lia].
  - cbn [serve fold_left]. fold (serve env rs (handle env r st)).
    destruct (IH (handle env r st)) as (sent2 & -> & Hlen2).
    destruct (handle_sent env r st) as (sent1 & -> & Hlen1).
    exists (sent1 ++ sent2)%list. rewrite app_assoc. split; [reflexivity |].
    rewrite length_app. cbn [length]. lia.
Qed.





(** ** Telling a failure from an answer *)

Lemma prefix_append (p s : string) : String.prefix p (p +:+ s) = true.
Proof.
  induction p as [| c p IH]; [destruct s; reflexivity |].
  change (String c p +:+ s) with (String c (p +:+ s)). cbn [String.prefix].
  destruct (ascii_dec c c) as [_ | Hne]; [exact IH | contradiction].
Qed.

Lemma format_results_not_failure (results : list MatchRecord) :
  String.prefix "Search failed: " (_format_results results) = false.
Proof.
  destruct results as [| r rs]; [reflexivity |].
  unfold _format_results. rewrite format_loop_cons.
  destruct (format_loop (1 + 1) rs []); reflexivity.
Qed.

Lemma search_body_formatted (env : Env) (task_id query : string) (top_k : Z)
    (st st' : State) (s : string) :
  search_body env task_id query top_k st = (Ok s, st') ->
  exists results, s = _format_results results.
Proof.
  unfold search_body, bind.
  destruct (global_getitem g_MODELS task_id st) as [[m | e] st1]; [| discriminate].
  destruct (global_getitem g_TASKS task_id st1) as [[task | e] st2]; [| discriminate].
  destruct (_get_embedding env query m st2) as [[v | e] st3]; [| discriminate].
  destruct (_search_database env v m task top_k st3) as [[results | e] st4];
    [| discriminate].
  unfold ret. intros [= <- _]. eauto.
Qed.

(** X4. The string a tool returns starts with ["Search failed: "] exactly
    when its [try] block raised: the formatter never produces a string with
    that start, for any list of records with any content. *)
Theorem failure_prefix_iff_raised (env : Env) (t : Tool) (task_id query : string)
    (top_k : Z) (st : State) :
  runs_profile env t task_id ->
  exists s,
    fst (tool_fn t query top_k st) = Ok s /\
    (String.prefix "Search failed: " s = true <->
     exists e, fst (search_body env task_id query top_k st) = Raise e).
Proof.
  intros [_ Hrun]. rewrite Hrun. unfold profile_search, try_except.
  destruct (search_body env task_id query top_k st) as [[s | e] st'] eqn:Hbody.
  - exists s. split; [reflexivity |].
    destruct (search_body_formatted _ _ _ _ _ _ _ Hbody) as [results ->].
    rewrite format_results_not_failure. cbn [fst].
    split; [discriminate | intros [e He]; discriminate He].
  - eexists. split; [reflexivity |]. rewrite prefix_append. cbn [fst].
    split; [eauto | reflexivity].
Qed.

Lemma failure_prefix_iff_raised_witness :
  let env := backend_down_env [] in
  let t := mkTool "search_style" "Search for content clustered by theme or style"
             3 (search_style env) in
  runs_profile env t "style" /\
  exists s,
    fst (search_style env "tone" 3 initial_state) = Ok s /\
    (String.prefix "Search failed: " s = true <->
     exists e, fst (search_body env "style" "tone" 3 initial_state) = Raise e).
Proof.
  intros env t.
  assert (Ht : runs_profile env t "style").
  { split; [apply list_elem_of_here | reflexivity]. }
  split; [exact Ht |].
  exact (failure_prefix_iff_raised env t "style" "tone" 3 initial_state Ht).
Defined.

(** ** Growing a result list *)

Lemma format_loop_app (xs ys : list MatchRecord) (i : Z) :
  format_loop i (xs ++ ys) []
  = (format_loop i xs [] ++ format_loop (i + Z.of_nat (length xs)) ys [])%list.
Proof.
  revert i. induction xs as [| x xs IH]; intros i.
  - cbn [app length format_loop]. rewrite Z.add_0_r. reflexivity.
  - change ((x :: xs) ++ ys)%list with (x :: (xs ++ ys))%list.
    rewrite !format_loop_cons, IH. cbn [app length].
    do 3 f_equal. lia.
Qed.

Lemma join_snoc (sep : string) (parts : list string) (p : string) :
  parts <> [] -> join sep (parts ++ [p]) = join sep parts +:+ sep +:+ p.
Proof.
  induction parts as [| a [| b parts] IH]; intros Hne.
  - contradiction.
  - reflexivity.
  - change (join sep ((a :: b :: parts) ++ [p]))
      with (a +:+ sep +:+ join sep ((b :: parts) ++ [p])).
    rewrite IH by discriminate.
    change (join sep (a :: b :: parts)) with (a +:+ sep +:+ join sep (b :: parts)).
    rewrite !append_assoc. reflexivity.
Qed.

Lemma format_results_snoc_part (results : list MatchRecord) (r : MatchRecord) :
  results <> [] ->
  _format_results (results ++ [r])
  = _format_results results +:+ nl
    +:+ format_part (Z.of_nat (length results) + 1) r.
Proof.
  intros Hne. destruct results as [| r0 rs]; [contradiction |].
  change (_format_results ((r0 :: rs) ++ [r]))
    with (join nl (format_loop 1 ((r0 :: rs) ++ [r]) [])).
  change (_format_results (r0 :: rs)) with (join nl (format_loop 1 (r0 :: rs) [])).
  rewrite format_loop_app.
  assert (Hlast : forall i, format_loop i [r] [] = [format_part i r]) by reflexivity.
  rewrite Hlast, join_snoc.
  - rewrite (Z.add_comm 1 (Z.of_nat (length (r0 :: rs)))). reflexivity.
  - rewrite format_loop_cons. discriminate.
Qed.

(** X5. One more record at the end of a non-empty list adds one entry to
    the end of the output, after a newline and numbered with the new length;
    the text before it is the output for the shorter list, unchanged. *)
Theorem format_results_snoc (results : list MatchRecord) (r : MatchRecord) :
  results <> [] ->
  _format_results (results ++ [r])
  = _format_results results +:+ nl
    +:+ "--- Result " +:+ str_int (Z.of_nat (length results) + 1) +:+ " | "
    +:+ doc_name r +:+ " | " +:+ doc_id r +:+ " ---" +:+ nl
    +:+ "--- Document Start ---" +:+ nl
    +:+ "Content: " +:+ matching_content r +:+ nl
    +:+ "--- Document End ---" +:+ nl.
Proof. intros Hne. exact (format_results_snoc_part results r Hne). Qed.

Lemma format_results_snoc_witness :
  let results := [mkMatch "42" "policy.md" "Refunds within 30 days."] in
  let r := mkMatch "7" "faq.md" "Contact support for refunds." in
  results <> [] /\
  _format_results (results ++ [r])
  = _format_results results +:+ nl
    +:+ "--- Result " +:+ str_int 2 +:+ " | "
    +:+ "faq.md" +:+ " | " +:+ "7" +:+ " ---" +:+ nl
    +:+ "--- Document Start ---" +:+ nl
    +:+ "Content: " +:+ "Contact support for refunds." +:+ nl
    +:+ "--- Document End ---" +:+ nl.
Proof.
  intros results r.
  assert (Hne : results <> []) by discriminate.
  split; [exact Hne |]. exact (format_results_snoc results r Hne).
Defined.

(** ** The profiles of the registry, tool by tool *)

Lemma append_nil_r (s : string) : s +:+ EmptyString = s.
Proof.
  induction s as [| c s IH]; [reflexivity |].
  change (String c (s +:+ EmptyString) = String c s). rewrite IH. reflexivity.
Qed.

Lemma MODELS_suffix (task_id : string) (m : Model) :
  MODELS !! task_id = Some m -> suffix m = EmptyString.
Proof.
  unfold MODELS. cbn [list_to_map foldr uncurry fst snd].
  rewrite !lookup_insert_Some, lookup_empty.
  intros H. repeat destruct H as [[<- <-] | [_ H]]; try reflexivity.
  discriminate.
Qed.

Lemma TASKS_of_MODELS (task_id : string) (m : Model) :
  MODELS !! task_id = Some m ->
  exists task, TASKS !! task_id = Some task /\ name task = task_id.
Proof.
  intros Hm.
  assert (is_Some (TASKS !! task_id)) as [task Htask].
  { revert Hm. unfold MODELS. cbn [list_to_map foldr uncurry fst snd].
    rewrite !lookup_insert_Some, lookup_empty.
    intros H. repeat destruct H as [[<- _] | [_ H]]; try discriminate;
      eexists; vm_compute; reflexivity. }
  exists task. split; [exact Htask | exact (TASKS_name _ _ Htask)].
Qed.

(** A search of a profile of the registry, in a state with the tables of the
    module: the input is the prefix and the query, the task tag is the key. *)
Lemma registered_search_run (env : Env) (task_id query : string) (top_k : Z)
    (st : State) (m : Model) :
  globals st = module_globals ->
  MODELS !! task_id = Some m ->
  let request := EmbedRequest (model m) (prefix m +:+ query) in
  profile_search env task_id query top_k st =
  match embeddings_create env (trace st) (model m) (prefix m +:+ query) with
  | Raise e =>
      (Ok ("Search failed: " +:+ str_exn e),
       mkState module_globals (trace st ++ [request]))
  | Ok response =>
      match data response with
      | [] =>
          (Ok ("Search failed: list index out of range"),
           mkState module_globals (trace st ++ [request]))
      | item :: _ =>
          let params := mkParams (model m) task_id (embedding item) top_k in
          (match execute_fetchall env (trace st ++ [request]) cosine_statement params with
           | Ok rows => Ok (_format_results (map row_to_dict rows))
           | Raise e => Ok ("Search failed: " +:+ str_exn e)
           end,
           mkState module_globals (trace st ++ [request; StoreQuery cosine_statement params]))
      end
  end.
Proof.
  intros Hst Hm request.
  destruct (TASKS_of_MODELS _ _ Hm) as (task & Htask & Hname).
  rewrite (profile_search_run env task_id query top_k st m task "<=>" "ASC").
  - rewrite (MODELS_suffix _ _ Hm), append_nil_r, Hname, Hst, search_statement_cosine.
    fold request.
    destruct (embeddings_create env (trace st) (model m) (prefix m +:+ query))
      as [[[| item rest]] | e]; cbn [data]; try reflexivity.
    rewrite <- app_assoc. reflexivity.
  - rewrite Hst. exact Hm.
  - rewrite Hst. exact Htask.
  - rewrite Hst, (MODELS_cosine _ _ Hm). exact DISTANCE_OPERATORS_cosine.
  - rewrite Hst, (MODELS_cosine _ _ Hm). exact DISTANCE_ORDER_cosine.
Qed.

(** X6. When the embedding backend raises, the tool returns the failure
    string with the message of the exception, has sent that one request and
    sends nothing to the store. *)
Theorem backend_failure_sends_no_query (env : Env) (t : Tool) (task_id query : string)
    (top_k : Z) (st : State) (m : Model) (e : exn) :
  runs_profile env t task_id ->
  globals st = module_globals ->
  MODELS !! task_id = Some m ->
  embeddings_create env (trace st) (model m) (prefix m +:+ query) = Raise e ->
  tool_fn t query top_k st
  = (Ok ("Search failed: " +:+ str_exn e),
     mkState module_globals (trace st ++ [EmbedRequest (model m) (prefix m +:+ query)])).
Proof.
  intros [_ Hrun] Hst Hm He.
  rewrite Hrun, (registered_search_run env task_id query top_k st m Hst Hm), He.
  reflexivity.
Qed.

Lemma backend_failure_sends_no_query_witness :
  let env := backend_down_env [mkRow (SqlInt 42) "policy.md" "Refunds within 30 days."] in
  let t := mkTool "search_qa" "Search optimized for question-answer pairs" 3 (search_qa env) in
  runs_profile env t "qa" /\
  search_qa env "refunds?" 3 initial_state
  = (Ok "Search failed: Request timed out.",
     mkState module_globals [EmbedRequest "nomic-embed-text:v1.5" "search_query: refunds?"]).
Proof.
  intros env t.
  assert (Ht : runs_profile env t "qa").
  { split; [apply list_elem_of_further, list_elem_of_here | reflexivity]. }
  split; [exact Ht |].
  exact (backend_failure_sends_no_query env t "qa" "refunds?" 3 initial_state _
           (LibraryError "openai.APITimeoutError" "Request timed out.")
           Ht eq_refl MODELS_qa eq_refl).
Defined.

(** X7. When the embedding backend answers without any embedding, the tool
    returns ["Search failed: list index out of range"] and sends nothing to
    the store. *)
Theorem empty_embedding_answer_reported (env : Env) (t : Tool) (task_id query : string)
    (top_k : Z) (st : State) (m : Model) :
  runs_profile env t task_id ->
  globals st = module_globals ->
  MODELS !! task_id = Some m ->
  embeddings_create env (trace st) (model m) (prefix m +:+ query) = Ok (mkResponse []) ->
  tool_fn t query top_k st
  = (Ok "Search failed: list index out of range",
     mkState module_globals (trace st ++ [EmbedRequest (model m) (prefix m +:+ query)])).
Proof.
  intros [_ Hrun] Hst Hm He.
  rewrite Hrun, (registered_search_run env task_id query top_k st m Hst Hm), He.
  reflexivity.
Qed.

Lemma empty_embedding_answer_reported_witness :
  let env := mkEnv (fun _ _ _ => Ok (mkResponse [])) (fun _ _ _ => Ok []) in
  let t := mkTool "search_style" "Search for content clustered by theme or style"
             3 (search_style env) in
  runs_profile env t "style" /\
  search_style env "tone" 3 initial_state
  = (Ok "Search failed: list index out of range",
     mkState module_globals [EmbedRequest "nomic-embed-text:v1.5" "classification: tone"]).
Proof.
  intros env t.
  assert (Ht : runs_profile env t "style").
  { split; [apply list_elem_of_here | reflexivity]. }
  split; [exact Ht |].
  exact (empty_embedding_answer_reported env t "style" "tone" 3 initial_state _
           Ht eq_refl MODELS_style eq_refl).
Defined.

(** X8. When the store raises, the tool returns the failure string with the
    message of the exception, after one request to the backend and one query
    to the store; no rows are returned in part. *)
Theorem store_failure_reported (env : Env) (t : Tool) (task_id query : string)
    (top_k : Z) (st : State) (m : Model) (item : Embedding) (rest : list Embedding)
    (e : exn) :
  let request := EmbedRequest (model m) (prefix m +:+ query) in
  let params := mkParams (model m) task_id (embedding item) top_k in
  runs_profile env t task_id ->
  globals st = module_globals ->
  MODELS !! task_id = Some m ->
  embeddings_create env (trace st) (model m) (prefix m +:+ query)
  = Ok (mkResponse (item :: rest)) ->
  execute_fetchall env (trace st ++ [request]) cosine_statement params = Raise e ->
  tool_fn t query top_k st
  = (Ok ("Search failed: " +:+ str_exn e),
     mkState module_globals (trace st ++ [request; StoreQuery cosine_statement params])).
Proof.
  intros request params [_ Hrun] Hst Hm He Hq.
  rewrite Hrun, (registered_search_run env task_id query top_k st m Hst Hm), He.
  cbn [data]. fold request. fold params. rewrite Hq. reflexivity.
Qed.

Lemma store_failure_reported_witness :
  let env :=
    mkEnv (fun _ _ _ => Ok (mkResponse [mkEmbedding [1 # 2]%Q]))
      (fun _ _ _ =>
         Raise (LibraryError "psycopg2.errors.InvalidRowCountInLimitClause"
                  "LIMIT must not be negative")) in
  let t := mkTool "search_style" "Search for content clustered by theme or style"
             3 (search_style env) in
  runs_profile env t "style" /\
  search_style env "tone" (-1) initial_state
  = (Ok "Search failed: LIMIT must not be negative",
     mkState module_globals
       [ EmbedRequest "nomic-embed-text:v1.5" "classification: tone";
         StoreQuery cosine_statement
           (mkParams "nomic-embed-text:v1.5" "style" [1 # 2]%Q (-1)) ]).
Proof.
  intros env t.
  assert (Ht : runs_profile env t "style").
  { split; [apply list_elem_of_here | reflexivity]. }
  split; [exact Ht |].
  exact (store_failure_reported env t "style" "tone" (-1) initial_state _
           (mkEmbedding [1 # 2]%Q) []
           (LibraryError "psycopg2.errors.InvalidRowCountInLimitClause"
              "LIMIT must not be negative")
           Ht eq_refl MODELS_style eq_refl eq_refl).
Defined.

(** X9. When both collaborators answer, the tool sends the prefix of its
    profile followed by the query, as it is, to the profile's model; it
    queries the store once, with the cosine statement, the model, the key of
    the profile as the task, the vector of the backend and the caller's
    [top_k], all unchanged; and it returns the formatter's output for the
    rows, in the order of the answer. *)
Theorem successful_search_run (env : Env) (t : Tool) (task_id query : string)
    (top_k : Z) (st : State) (m : Model) (item : Embedding) (rest : list Embedding)
    (rows : list Row) :
  let request := EmbedRequest (model m) (prefix m +:+ query) in
  let params := mkParams (model m) task_id (embedding item) top_k in
  runs_profile env t task_id ->
  globals st = module_globals ->
  MODELS !! task_id = Some m ->
  embeddings_create env (trace st) (model m) (prefix m +:+ query)
  = Ok (mkResponse (item :: rest)) ->
  execute_fetchall env (trace st ++ [request]) cosine_statement params = Ok rows ->
  tool_fn t query top_k st
  = (Ok (_format_results (map row_to_dict rows)),
     mkState module_globals (trace st ++ [request; StoreQuery cosine_statement params])).
Proof.
  intros request params [_ Hrun] Hst Hm He Hq.
  rewrite Hrun, (registered_search_run env task_id query top_k st m Hst Hm), He.
  cbn [data]. fold request. fold params. rewrite Hq. reflexivity.
Qed.

Lemma successful_search_run_witness :
  let rows := [ mkRow (SqlInt 42) "policy.md" "Refunds within 30 days.";
                mkRow (SqlText "7") "faq.md" "Contact support for refunds." ] in
  let env := answering_env [1 # 2; 3 # 4]%Q rows in
  let t := mkTool "search_qa" "Search optimized for question-answer pairs" 3 (search_qa env) in
  runs_profile env t "qa" /\
  search_qa env "refunds?" 2 initial_state
  = (Ok (_format_results
           [ mkMatch "42" "policy.md" "Refunds within 30 days.";
             mkMatch "7" "faq.md" "Contact support for refunds." ]),
     mkState module_globals
       [ EmbedRequest "nomic-embed-text:v1.5" "search_query: refunds?";
         StoreQuery cosine_statement
           (mkParams "nomic-embed-text:v1.5" "qa" [1 # 2; 3 # 4]%Q 2) ]).
Proof.
  intros rows env t.
  assert (Ht : runs_profile env t "qa").
  { split; [apply list_elem_of_further, list_elem_of_here | reflexivity]. }
  split; [exact Ht |].
  exact (successful_search_run env t "qa" "refunds?" 2 initial_state _
           (mkEmbedding [1 # 2; 3 # 4]%Q) [] rows
           Ht eq_refl MODELS_qa eq_refl eq_refl).
Defined.

(** ** The metric tables under [_search_database] *)

Lemma DISTANCE_OPERATORS_other (metric : string) :
  metric ∉ ["cosine"; "inner_product"; "l2"] -> DISTANCE_OPERATORS !! metric = None.
Proof.
  intros Hnot. rewrite !not_elem_of_cons in Hnot. destruct Hnot as (H1 & H2 & H3 & _).
  unfold DISTANCE_OPERATORS. cbn [list_to_map foldr uncurry fst snd].
  rewrite !lookup_insert_ne by congruence. apply lookup_empty.
Qed.

(** X10. In a state with the tables of the module, [_search_database] for a
    model whose metric is none of [cosine], [inner_product] and [l2] raises
    [KeyError] with the metric as its key, and sends nothing to the store. *)
Theorem search_database_unknown_metric (env : Env) (v : Vector) (m : Model) (task : Task)
    (top_k : Z) (st : State) :
  globals st = module_globals ->
  distance_metric m ∉ ["cosine"; "inner_product"; "l2"] ->
  _search_database env v m task top_k st = (Raise (KeyError (distance_metric m)), st).
Proof.
  intros Hst Hnot. apply _search_database_no_operator.
  rewrite Hst. apply DISTANCE_OPERATORS_other. exact Hnot.
Qed.

Lemma search_database_unknown_metric_witness :
  let env := answering_env [1 # 2]%Q [] in
  let m := Model_init "m" None None (Some "manhattan") in
  (distance_metric m ∉ ["cosine"; "inner_product"; "l2"]) /\
  _search_database env [1 # 2]%Q m ip_task 3 initial_state
  = (Raise (KeyError "manhattan"), initial_state).
Proof.
  intros env m.
  assert (Hnot : distance_metric m ∉ ["cosine"; "inner_product"; "l2"]).
  { rewrite !not_elem_of_cons. repeat split; try discriminate. apply not_elem_of_nil. }
  split; [exact Hnot |].
  exact (search_database_unknown_metric env [1 # 2]%Q m ip_task 3 initial_state
           eq_refl Hnot).
Defined.




(** ** The statement and its parameters *)

Lemma count_placeholders_skip (a b : string) :
  contains_char "%" a = false ->
  count_placeholders (a +:+ b) = count_placeholders b.
Proof.
  induction a as [| c a IH]; intros Hno; [reflexivity |].
  cbn [contains_char] in Hno. apply orb_false_elim in Hno as [Hc Ha].
  change (String c a +:+ b) with (String c (a +:+ b)).
  cbn [count_placeholders]. rewrite Hc, IH by exact Ha. reflexivity.
Qed.

(** X12. For an operator and a direction without a percent sign, which
    holds of every entry of the two tables, the statement that
    [_search_database] builds has exactly four [%s]: as many as the
    parameters it passes to [cursor.execute]. *)
Theorem statement_has_four_placeholders (operator order_direction : string) :
  contains_char "%" operator = false ->
  contains_char "%" order_direction = false ->
  format SEARCH_QUERY [("operator", operator); ("order_direction", order_direction)]
  = Ok (search_statement operator order_direction) /\
  count_placeholders (search_statement operator order_direction) = 4%nat.
Proof.
  intros Hop Hdir. split; [apply format_SEARCH_QUERY |].
  unfold search_statement.
  match goal with
  | |- count_placeholders (?lit +:+ _) = _ =>
      let lit' := eval vm_compute in lit in change lit with lit'
  end.
  cbv [String.append]. fold String.append.
  cbn [count_placeholders Ascii.eqb Bool.eqb andb Nat.add].
  rewrite (count_placeholders_skip operator) by exact Hop.
  cbv [String.append]. fold String.append.
  cbn [count_placeholders Ascii.eqb Bool.eqb andb Nat.add].
  rewrite (count_placeholders_skip order_direction) by exact Hdir.
  vm_compute. reflexivity.
Qed.

Lemma statement_has_four_placeholders_witness :
  contains_char "%" "<#>" = false /\
  contains_char "%" "DESC" = false /\
  count_placeholders (search_statement "<#>" "DESC") = 4%nat.
Proof.
  split; [reflexivity |]. split; [reflexivity |].
  exact (proj2 (statement_has_four_placeholders "<#>" "DESC" eq_refl eq_refl)).
Defined.

(** ** The keys of the tables *)

Ltac table_keys :=
  cbn [list_to_map foldr uncurry fst snd]; split;
  [ intros [x H]; revert H; rewrite !lookup_insert_Some, lookup_empty; intros H;
    repeat destruct H as [[<- _] | [_ H]]; try discriminate; set_solver
  | intros H; apply list_elem_of_In in H; simpl in H;
    repeat destruct H as [<- | H]; try contradiction; eexists; vm_compute; reflexivity ].

Lemma MODELS_keys (k : string) :
  is_Some (MODELS !! k) <-> k ∈ ["qa"; "style"; "semantic"; "similar_code"].
Proof. unfold MODELS. table_keys. Qed.

Lemma TASKS_keys (k : string) :
  is_Some (TASKS !! k) <-> k ∈ ["qa"; "style"; "semantic"; "similar_code"].
Proof. unfold TASKS. table_keys. Qed.

Lemma DISTANCE_OPERATORS_keys (k : string) :
  is_Some (DISTANCE_OPERATORS !! k) <-> k ∈ ["cosine"; "inner_product"; "l2"].
Proof. unfold DISTANCE_OPERATORS. table_keys. Qed.

Lemma DISTANCE_ORDER_keys (k : string) :
  is_Some (DISTANCE_ORDER !! k) <-> k ∈ ["cosine"; "inner_product"; "l2"].
Proof. unfold DISTANCE_ORDER. table_keys. Qed.

(** X13. The registry is consistent: [MODELS] and [TASKS] have the same
    keys, the name of every task is the key it is stored under (so the task
    tag of a query is the key of the profile), and the two metric tables
    have the same keys (so a metric never resolves in one and not in the
    other). *)
Theorem registry_keys_agree :
  dom MODELS = dom TASKS /\
  dom DISTANCE_OPERATORS = dom DISTANCE_ORDER /\
  (forall task_id task, TASKS !! task_id = Some task -> name task = task_id) /\
  (forall task_id m,
      MODELS !! task_id = Some m ->
      exists task, TASKS !! task_id = Some task /\ name task = task_id).
Proof.
  split; [| split; [| split]].
  - apply set_eq. intros k. rewrite !elem_of_dom, MODELS_keys, TASKS_keys. reflexivity.
  - apply set_eq. intros k.
    rewrite !elem_of_dom, DISTANCE_OPERATORS_keys, DISTANCE_ORDER_keys. reflexivity.
  - exact TASKS_name.
  - exact TASKS_of_MODELS.
Qed.

Lemma registry_keys_agree_witness :
  TASKS !! "similar_code" = Some (mkTask "similar_code" "Search for similar code snippets") /\
  name (mkTask "similar_code" "Search for similar code snippets") = "similar_code".
Proof.
  split; [exact TASKS_similar_code |].
  destruct registry_keys_agree as (_ & _ & H & _).
  exact (H "similar_code" _ TASKS_similar_code).
Defined.

(** ** Start-up *)

Section StartupRun.

Import Startup.

Variable platform : Platform.
Variable environ : gmap string string.

(** What [RAGMCPServer()] does, case by case. *)
Lemma rag_server_run :
  let db_args :=
    mkConnectArgs (os_getenv environ "RM_DB_HOST") (os_getenv environ "RM_DB_PORT")
      (os_getenv environ "RM_DB_NAME") (os_getenv environ "RM_DB_USER")
      (os_getenv environ "RM_DB_PASSWORD") in
  let client_args :=
    mkOpenAIArgs (os_getenv environ "RM_OPENAI_API_KEY")
      (os_getenv environ "RM_OPENAI_ENDPOINT") in
  rag_server platform environ =
  match psycopg2_connect platform db_args with
  | Raise _ => (Exited 1, [Connect db_args])
  | Ok conn =>
      match OpenAI platform client_args with
      | Raise _ => (Exited 1, [Connect db_args; NewClient client_args])
      | Ok client =>
          (Done (mkServer (Some conn) (Some client)),
           [Connect db_args; NewClient client_args])
      end
  end.
Proof.
  intros db_args client_args.
  unfold rag_server, __init__, _initialize_connections, s_bind, s_try, connect,
    new_client, s_ret, sys_exit.
  fold db_args. fold client_args. cbn [app].
  destruct (psycopg2_connect platform db_args) as [conn | e]; [| reflexivity].
  cbn [app db_conn].
  destruct (OpenAI platform client_args) as [client | e]; reflexivity.
Qed.

End StartupRun.

Section StartupProperties.

Import Startup.

(** X14. When [psycopg2.connect] raises, the start-up ends the process with
    exit status 1, and the OpenAI client is never constructed. *)
Theorem startup_database_failure (platform : Platform) (environ : gmap string string)
    (e : exn) :
  let db_args :=
    mkConnectArgs (environ !! "RM_DB_HOST") (environ !! "RM_DB_PORT")
      (environ !! "RM_DB_NAME") (environ !! "RM_DB_USER") (environ !! "RM_DB_PASSWORD") in
  psycopg2_connect platform db_args = Raise e ->
  rag_server platform environ = (Exited 1, [Connect db_args]).
Proof.
  intros db_args He. rewrite rag_server_run. unfold os_getenv. fold db_args.
  rewrite He. reflexivity.
Qed.

Lemma startup_database_failure_witness :
  psycopg2_connect no_database_platform
    (mkConnectArgs (Some "db") (Some "5432") (Some "kb") None None)
  = Raise (LibraryError "psycopg2.OperationalError" "connection refused") /\
  rag_server no_database_platform example_environ
  = (Exited 1,
     [Connect (mkConnectArgs (Some "db") (Some "5432") (Some "kb") None None)]).
Proof.
  split; [reflexivity |].
  exact (startup_database_failure no_database_platform example_environ
           (LibraryError "psycopg2.OperationalError" "connection refused") eq_refl).
Defined.

(** X15. When the database connects and the constructor of the OpenAI
    client raises, the start-up ends the process with exit status 1 as
    well, after both calls. *)
Theorem startup_client_failure (platform : Platform) (environ : gmap string string)
    (conn : Connection) (e : exn) :
  let db_args :=
    mkConnectArgs (environ !! "RM_DB_HOST") (environ !! "RM_DB_PORT")
      (environ !! "RM_DB_NAME") (environ !! "RM_DB_USER") (environ !! "RM_DB_PASSWORD") in
  let client_args :=
    mkOpenAIArgs (environ !! "RM_OPENAI_API_KEY") (environ !! "RM_OPENAI_ENDPOINT") in
  psycopg2_connect platform db_args = Ok conn ->
  OpenAI platform client_args = Raise e ->
  rag_server platform environ = (Exited 1, [Connect db_args; NewClient client_args]).
Proof.
  intros db_args client_args Hconn He. rewrite rag_server_run. unfold os_getenv.
  fold db_args. fold client_args. rewrite Hconn, He. reflexivity.
Qed.

Lemma startup_client_failure_witness :
  OpenAI no_client_platform (mkOpenAIArgs None None)
  = Raise (LibraryError "openai.OpenAIError" "The api_key client option must be set") /\
  rag_server no_client_platform example_environ
  = (Exited 1,
     [ Connect (mkConnectArgs (Some "db") (Some "5432") (Some "kb") None None);
       NewClient (mkOpenAIArgs None None) ]).
Proof.
  split; [reflexivity |].
  exact (startup_client_failure no_client_platform example_environ
           (fun _ _ _ => Ok [])
           (LibraryError "openai.OpenAIError" "The api_key client option must be set")
           eq_refl eq_refl).
Defined.

(** X16. The start-up never lets an exception out and never exits with a
    status other than 1.  It hands over a server exactly when both
    constructors succeed; then the server holds the two handles they
    returned, which are the collaborators of every later search, and the
    connection was opened before the client was made, each once, with the
    values of the [RM_] variables (a variable that is not set is passed as
    [None]). *)
Theorem startup_outcome (platform : Platform) (environ : gmap string string) :
  let db_args :=
    mkConnectArgs (environ !! "RM_DB_HOST") (environ !! "RM_DB_PORT")
      (environ !! "RM_DB_NAME") (environ !! "RM_DB_USER") (environ !! "RM_DB_PASSWORD") in
  let client_args :=
    mkOpenAIArgs (environ !! "RM_OPENAI_API_KEY") (environ !! "RM_OPENAI_ENDPOINT") in
  (forall e calls, rag_server platform environ <> (Raised e, calls)) /\
  (forall code calls, rag_server platform environ = (Exited code, calls) -> code = 1) /\
  (forall self calls,
      rag_server platform environ = (Done self, calls) <->
      exists conn client,
        psycopg2_connect platform db_args = Ok conn /\
        OpenAI platform client_args = Ok client /\
        self = mkServer (Some conn) (Some client) /\
        calls = [Connect db_args; NewClient client_args]) /\
  (forall self calls,
      rag_server platform environ = (Done self, calls) ->
      exists conn client,
        db_conn self = Some conn /\ openai_client self = Some client /\
        server_env self = Some (mkEnv client conn)).
Proof.
  intros db_args client_args. rewrite rag_server_run. unfold os_getenv.
  fold db_args. fold client_args.
  destruct (psycopg2_connect platform db_args) as [conn | e1];
    [destruct (OpenAI platform client_args) as [client | e2] |].
  - split; [discriminate |]. split; [discriminate |]. split.
    + intros self calls. split.
      * intros [= <- <-]. exists conn, client. repeat split.
      * intros (conn' & client' & [= <-] & [= <-] & -> & ->). reflexivity.
    + intros self calls [= <- <-]. exists conn, client. repeat split.
  - split; [discriminate |]. split; [intros code calls [= <- _]; reflexivity |].
    split; [| discriminate].
    intros self calls. split; [discriminate |].
    intros (conn' & client' & _ & Hc & _). discriminate Hc.
  - split; [discriminate |]. split; [intros code calls [= <- _]; reflexivity |].
    split; [| discriminate].
    intros self calls. split; [discriminate |].
    intros (conn' & client' & Hc & _). discriminate Hc.
Qed.

Lemma startup_outcome_witness :
  rag_server good_platform example_environ
  = (Done (mkServer (Some (fun _ _ _ => Ok []))
             (Some (fun _ _ _ => Ok (mkResponse [mkEmbedding [1 # 2]%Q])))),
     [ Connect (mkConnectArgs (Some "db") (Some "5432") (Some "kb") None None);
       NewClient (mkOpenAIArgs None None) ]).
Proof.
  destruct (startup_outcome good_platform example_environ) as (_ & _ & H & _).
  apply H. do 2 eexists. repeat split.
Defined.



End StartupProperties.

(** ** The first and the last entry of an output *)

(** X18. The output for a non-empty list starts with the header of its
    first record, numbered 1, and ends with the content of its last record
    followed by the closing line. *)
Theorem format_results_first_and_last (results : list MatchRecord)
    (first final : MatchRecord) :
  head results = Some first ->
  last results = Some final ->
  (exists rest,
      _format_results results
      = ("--- Result 1 | " +:+ doc_name first +:+ " | " +:+ doc_id first +:+ " ---" +:+ nl)
        +:+ rest) /\
  ends_with
    ("Content: " +:+ matching_content final +:+ nl +:+ "--- Document End ---" +:+ nl)
    (_format_results results).
Proof.
  intros Hfirst Hlast. split.
  - destruct results as [| r rs]; [discriminate |]. injection Hfirst as ->.
    unfold _format_results. rewrite format_loop_cons.
    change (format_part 1 first)
      with ("--- Result 1 | " +:+ doc_name first +:+ " | " +:+ doc_id first +:+ " ---" +:+ nl
            +:+ "--- Document Start ---" +:+ nl
            +:+ "Content: " +:+ matching_content first +:+ nl
            +:+ "--- Document End ---" +:+ nl).
    destruct (format_loop (1 + 1) rs []) as [| p ps]; cbn [join];
      eexists; rewrite !append_assoc; reflexivity.
  - apply last_Some in Hlast as [rs ->].
    destruct rs as [| r0 rs'].
    + exists ("--- Result " +:+ str_int 1 +:+ " | " +:+ doc_name final +:+ " | "
              +:+ doc_id final +:+ " ---" +:+ nl +:+ "--- Document Start ---" +:+ nl).
      unfold _format_results, format_part. cbn [app format_loop join].
      rewrite !append_assoc. reflexivity.
    + rewrite format_results_snoc_part by discriminate.
      exists (_format_results (r0 :: rs') +:+ nl
              +:+ "--- Result " +:+ str_int (Z.of_nat (length (r0 :: rs')) + 1) +:+ " | "
              +:+ doc_name final +:+ " | " +:+ doc_id final +:+ " ---" +:+ nl
              +:+ "--- Document Start ---" +:+ nl).
      unfold format_part. rewrite !append_assoc. reflexivity.
Qed.

Lemma format_results_first_and_last_witness :
  let results :=
    [ mkMatch "42" "policy.md" "Refunds within 30 days.";
      mkMatch "7" "faq.md" "Contact support for refunds." ] in
  head results = Some (mkMatch "42" "policy.md" "Refunds within 30 days.") /\
  last results = Some (mkMatch "7" "faq.md" "Contact support for refunds.") /\
  ends_with
    ("Content: " +:+ "Contact support for refunds." +:+ nl +:+ "--- Document End ---" +:+ nl)
    (_format_results results).
Proof.
  intros results. split; [reflexivity |]. split; [reflexivity |].
  exact (proj2 (format_results_first_and_last results _ _ eq_refl eq_refl)).
Defined.

(** ** The order of the requests *)

Lemma paired_app (a b : list Event) : paired a -> paired b -> paired (a ++ b).
Proof.
  intros Ha Hb. induction Ha as [| m i rest _ IH | m i s p rest Hm _ IH]; cbn [app].
  - exact Hb.
  - apply paired_embed. exact IH.
  - apply paired_both; [exact Hm | exact IH].
Qed.

Lemma sent_by_call_paired (top_k : Z) (sent : list Event) :
  sent_by_call top_k sent -> paired sent.
Proof.
  destruct 1 as [| m i | m i s p Hm _].
  - constructor.
  - apply paired_embed. constructor.
  - apply paired_both; [exact Hm | constructor].
Qed.

Lemma handle_paired (env : Env) (r : Request) (st : State) :
  paired (trace st) -> paired (trace (handle env r st)).
Proof.
  intros Hst. unfold handle.
  destruct (mcp_tools env !! req_tool r) as [t |] eqn:Ht; [| exact Hst].
  apply list_elem_of_lookup_2 in Ht. unfold call_tool.
  destruct (tool_any_state env t (req_query r)
              (default (tool_top_k_default t) (req_top_k r)) st Ht)
    as (task_id & sent & -> & Hsent).
  cbn [snd trace]. apply paired_app; [exact Hst |].
  eapply sent_by_call_paired. exact Hsent.
Qed.

Lemma serve_paired (env : Env) (requests : list Request) (st : State) :
  paired (trace st) -> paired (trace (serve env requests st)).
Proof.
  revert st. induction requests as [| r rs IH]; intros st Hst; [exact Hst |].
  cbn [serve fold_left]. fold (serve env rs (handle env r st)).
  apply IH, handle_paired, Hst.
Qed.

(** X19. Over any sequence of requests, with any collaborators, every
    query to the store comes right after a request to the embedding backend
    for the same model: the store is never queried on its own, and never
    twice for one embedding. *)
Theorem store_queries_follow_embeddings (env : Env) (requests : list Request) :
  paired (trace (serve env requests initial_state)).
Proof. apply serve_paired. constructor. Qed.
